(** * RockHound-GO browser verification scripts

    A shallow embedding of the four Playwright scenario scripts under
    [verification/]: [verify_app.py], [verify_revolutionary.py],
    [verify_app_debug.py] and [verify_fix.py].

    Every script is a straight-line sequence of calls into the browser
    automation library, wrapped in Python [try]/[except]/[finally].  The
    calls are effects whose outcome the scripts do not control, so each
    call asks an [oracle] (the browser, the page under test, the file
    system) whether it returns or raises, and a script is a function from
    the oracle and the events so far to its outcome and the events it
    emitted.  Python strings are kept as their UTF-8 bytes.  [print] of
    pure ASCII text always succeeds; for any other text the write to
    standard output is a call like the others, which raises
    [UnicodeEncodeError] when the stream's encoding cannot take it. *)

From Stdlib Require Import String Ascii ZArith List Bool.
From stdpp Require Import base list strings gmap.

Local Open Scope Z_scope.

(** ** Exceptions *)

(** The part of Python's exception hierarchy the scripts can tell apart:
    [except Exception] catches the first three classes, a bare [except:]
    catches all four. *)
Inductive exn_class : Type :=
| TimeoutError        (* playwright TimeoutError, a playwright Error *)
| PlaywrightError     (* any other playwright Error *)
| OtherException      (* any other subclass of Exception *)
| KeyboardInterrupt.  (* a BaseException that is not an Exception *)

Record exn : Type := Exn { exn_class_of : exn_class; exn_msg : string }.

Definition is_Exception (e : exn) : bool :=
  match exn_class_of e with
  | KeyboardInterrupt => false
  | _ => true
  end.

Definition is_timeout (e : exn) : bool :=
  match exn_class_of e with
  | TimeoutError => true
  | _ => false
  end.

(** [str(e)], as interpolated by [f"Error: {e}"]. *)
Definition str (e : exn) : string := exn_msg e.

(** ** Calls into the automation library *)

Inductive call : Type -> Type :=
| SyncPlaywrightEnter : call unit                (* with sync_playwright() as p *)
| SyncPlaywrightExit : call unit                 (* leaving the with block *)
| ChromiumLaunch (headless : bool) : call unit   (* p.chromium.launch(headless=..) *)
| NewPage : call unit                            (* browser.new_page() *)
| Goto (url : string) (timeout : option Z) : call unit
| WaitForSelector (selector : string) (timeout : Z) : call unit
| Screenshot (path : string) : call unit
| Fill (selector value : string) : call unit
| Click (selector : string) : call unit
| IsVisible (selector : string) : call bool
| Title : call string
| Content : call string
| BrowserClose : call unit
| StdoutWrite (text : string) : call unit.       (* sys.stdout.write of non-ASCII text *)

Inductive event : Type :=
| Printed (line : string)
| Call {A : Type} (c : call A) (r : exn + A).

Definition oracle : Type := forall A : Type, list event -> call A -> exn + A.

(** ** The script monad *)

Inductive outcome (A : Type) : Type :=
| Normal (a : A)
| Raise (e : exn).
Arguments Normal {A} a.
Arguments Raise {A} e.

(** A computation reads the oracle and the events that happened before it
    started, and yields its outcome and the events it emitted. *)
Definition M (A : Type) : Type := oracle -> list event -> outcome A * list event.

Definition ret {A} (a : A) : M A := fun _ _ => (Normal a, []).

Definition bind {A B} (m : M A) (f : A -> M B) : M B :=
  fun o h =>
    match m o h with
    | (Normal a, t1) => let (r, t2) := f a o (h ++ t1) in (r, t1 ++ t2)
    | (Raise e, t1) => (Raise e, t1)
    end.

Declare Scope py_scope.
Delimit Scope py_scope with py.
Notation "x <- m ;; k" := (bind m (fun x => k))
  (at level 100, m at next level, right associativity) : py_scope.
Notation "m ;; k" := (bind m (fun _ => k))
  (at level 100, right associativity) : py_scope.
Local Open Scope py_scope.

Definition outcome_of {A} (r : exn + A) : outcome A :=
  match r with
  | inl e => Raise e
  | inr a => Normal a
  end.

Definition invoke {A} (c : call A) : M A :=
  fun o h => let r := o A h c in (outcome_of r, [Call c r]).

(** A byte below 128: a character every encoding of standard output has. *)
Definition is_ascii (c : ascii) : bool :=
  match c with
  | Ascii _ _ _ _ _ _ _ b7 => negb b7
  end.

Fixpoint ascii_only (s : string) : bool :=
  match s with
  | EmptyString => true
  | String c s' => is_ascii c && ascii_only s'
  end.

(** [print(line)].  [Printed line] records that the statement ran.  Pure
    ASCII text is written under every encoding of standard output; other
    text is encoded by the stream, which raises [UnicodeEncodeError] (an
    [Exception]) in the caller when it has no encoding for it. *)
Definition print (line : string) : M unit :=
  fun o h =>
    if ascii_only line then (Normal tt, [Printed line])
    else
      let r := o unit (h ++ [Printed line]) (StdoutWrite line) in
      (outcome_of r, [Printed line; Call (StdoutWrite line) r]).

(** [try: body / except: handler] : a bare [except] catches everything. *)
Definition try_except {A} (body handler : M A) : M A :=
  fun o h =>
    match body o h with
    | (Normal a, t1) => (Normal a, t1)
    | (Raise _, t1) => let (r, t2) := handler o (h ++ t1) in (r, t1 ++ t2)
    end.

(** [try: body / except Exception as e: handler e] : an exception that is
    not an [Exception] passes through. *)
Definition try_except_Exception {A} (body : M A) (handler : exn -> M A) : M A :=
  fun o h =>
    match body o h with
    | (Normal a, t1) => (Normal a, t1)
    | (Raise e, t1) =>
        if is_Exception e
        then let (r, t2) := handler e o (h ++ t1) in (r, t1 ++ t2)
        else (Raise e, t1)
    end.

(** [try: body / finally: cleanup] : the cleanup runs on every path; an
    exception raised by the cleanup replaces the pending outcome. *)
Definition try_finally {A} (body : M A) (cleanup : M unit) : M A :=
  fun o h =>
    let (r, t1) := body o h in
    match cleanup o (h ++ t1) with
    | (Normal _, t2) => (r, t1 ++ t2)
    | (Raise e, t2) => (Raise e, t1 ++ t2)
    end.

(** [try / except Exception as e / finally] is the nesting of the two. *)
Definition try_except_finally {A}
    (body : M A) (handler : exn -> M A) (cleanup : M unit) : M A :=
  try_finally (try_except_Exception body handler) cleanup.

(** [with sync_playwright() as p: body].  The context manager's exit does
    not suppress exceptions. *)
Definition with_sync_playwright {A} (body : M A) : M A :=
  invoke SyncPlaywrightEnter ;;
  try_finally body (invoke SyncPlaywrightExit).

(** The library calls under the names the scripts use. *)
Definition chromium_launch (headless : bool) : M unit := invoke (ChromiumLaunch headless).
Definition browser_new_page : M unit := invoke NewPage.
Definition browser_close : M unit := invoke BrowserClose.
Definition page_goto (url : string) (timeout : option Z) : M unit := invoke (Goto url timeout).
Definition page_wait_for_selector (selector : string) (timeout : Z) : M unit :=
  invoke (WaitForSelector selector timeout).
Definition page_screenshot (path : string) : M unit := invoke (Screenshot path).
Definition page_fill (selector value : string) : M unit := invoke (Fill selector value).
Definition page_click (selector : string) : M unit := invoke (Click selector).
Definition page_is_visible (selector : string) : M bool := invoke (IsVisible selector).
Definition page_title : M string := invoke Title.
Definition page_content : M string := invoke Content.

(** ** String helpers *)

(** The double quote character inside the CSS selectors. *)
Definition dq : string := String "034"%char EmptyString.

(** [needle in hay] on Python strings. *)
Fixpoint str_in (needle hay : string) : bool :=
  String.prefix needle hay
  || match hay with
     | EmptyString => false
     | String _ hay' => str_in needle hay'
     end.

(** A UTF-8 continuation byte, [10xxxxxx]: it belongs to the character
    that the last leading byte started. *)
Definition is_continuation (c : ascii) : bool :=
  match c with
  | Ascii _ _ _ _ _ _ b6 b7 => b7 && negb b6
  end.

(** [len(s)]: the number of code points. *)
Fixpoint chars (s : string) : nat :=
  match s with
  | EmptyString => 0
  | String c s' => if is_continuation c then chars s' else S (chars s')
  end.

(** [s[:n]]: the first [n] code points, each with all its bytes. *)
Fixpoint slice_to (n : nat) (s : string) : string :=
  match s with
  | EmptyString => EmptyString
  | String c s' =>
      if is_continuation c then String c (slice_to n s')
      else
        match n with
        | O => EmptyString
        | S n' => String c (slice_to n' s')
        end
  end.

(** ** The scripts *)

Definition sel_email : string := Eval cbv in "input[type=" +:+ dq +:+ "email" +:+ dq +:+ "]".
Definition sel_password : string := Eval cbv in "input[type=" +:+ dq +:+ "password" +:+ dq +:+ "]".
Definition sel_has_text (label : string) : string :=
  "button:has-text(" +:+ dq +:+ label +:+ dq +:+ ")".

(** [verification/verify_app.py], [verify_app]. *)
Definition verify_app : M unit :=
  with_sync_playwright (
    chromium_launch true ;;
    browser_new_page ;;
    try_except_finally
      ( page_goto "http://localhost:4173" None ;;
        try_except
          ( page_wait_for_selector "text=Access Protocol" 5000 ;;
            print "Auth screen detected" ;;
            page_screenshot "verification/1_auth_screen.png" ;;
            page_fill sel_email "admin@rockhound.com" ;;
            page_fill sel_password "admin" ;;
            page_click (sel_has_text "Initialize Session") )
          ( print "Auth screen not found or already logged in" ) ;;
        page_wait_for_selector "text=SYSTEM ACTIVE" 10000 ;;
        print "Scanner view detected" ;;
        page_screenshot "verification/2_scanner_view.png" ;;
        page_click "header div.cursor-pointer" ;;
        page_wait_for_selector "text=Operative Profile" 5000 ;;
        print "Profile view detected" ;;
        page_screenshot "verification/3_profile_view.png" ;;
        page_click "button:has(svg.lucide-x)" ;;
        page_click "button:has(svg.lucide-box)" ;;
        page_wait_for_selector "text=Vault" 5000 ;;
        print "Collection view detected" ;;
        page_screenshot "verification/4_collection_view.png" )
      ( fun e =>
          print ("Error: " +:+ str e) ;;
          page_screenshot "verification/error.png" )
      browser_close ).

(** [verification/verify_revolutionary.py], [verify_app_revolutionary]. *)
Definition verify_app_revolutionary : M unit :=
  with_sync_playwright (
    chromium_launch true ;;
    browser_new_page ;;
    try_except_finally
      ( print "Navigating to app..." ;;
        page_goto "http://localhost:4173" (Some 60000) ;;
        try_except
          ( page_wait_for_selector "text=INITIALIZING KERNEL..." 10000 ;;
            print "Splash screen detected" ;;
            page_screenshot "verification/1_splash.png" )
          ( print "Splash screen skipped or missed" ) ;;
        try_except
          ( page_wait_for_selector "text=ROCKHOUND" 10000 ;;
            visible <- page_is_visible (sel_has_text "Initialize Protocol") ;;
            if visible : bool then
              print "Auth screen detected" ;;
              page_screenshot "verification/2_auth.png" ;;
              page_fill sel_email "admin@rockhound.com" ;;
              page_fill sel_password "admin" ;;
              page_click (sel_has_text "Authenticate")
            else ret tt )
          ( print "Auth screen not found or already logged in" ) ;;
        page_wait_for_selector "text=SYSTEM ACTIVE" 15000 ;;
        print "Scanner HUD detected" ;;
        page_screenshot "verification/3_scanner_hud.png" ;;
        page_click "header button:has(svg.lucide-terminal)" ;;
        page_wait_for_selector "text=Mainframe Control" 5000 ;;
        print "Admin Dashboard detected" ;;
        page_screenshot "verification/4_admin_dashboard.png" ;;
        page_click "button:has(svg.lucide-arrow-left)" ;;
        page_click "header button:has(svg.lucide-cloud-sun)" ;;
        page_wait_for_selector "text=Planetary Conditions" 5000 ;;
        print "Weather Dashboard detected" ;;
        page_screenshot "verification/5_weather_dashboard.png" )
      ( fun e =>
          print ("Error: " +:+ str e) ;;
          page_screenshot "verification/error_rev.png" )
      browser_close ).

(** [verification/verify_app_debug.py], [verify_app]. *)
Definition verify_app_debug : M unit :=
  with_sync_playwright (
    chromium_launch true ;;
    browser_new_page ;;
    try_except_finally
      ( print "Navigating to app..." ;;
        page_goto "http://localhost:4173" (Some 60000) ;;
        print "Waiting for body..." ;;
        page_wait_for_selector "body" 10000 ;;
        page_screenshot "verification/debug_state.png" ;;
        title <- page_title ;;
        print ("Page Title: " +:+ title) ;;
        content <- page_content ;;
        print ("Page Content Snippet: " +:+ slice_to 500 content) ;;
        if str_in "Access Protocol" content then
          print "Auth screen detected via text check"
        else if str_in "SYSTEM ACTIVE" content then
          print "Scanner view detected via text check"
        else
          print "Unknown state" )
      ( fun e => print ("Error: " +:+ str e) )
      browser_close ).

(** [verification/verify_fix.py], [verify_fix]. *)
Definition verify_fix : M unit :=
  with_sync_playwright (
    chromium_launch true ;;
    browser_new_page ;;
    try_except_finally
      ( print "Navigating to app..." ;;
        page_goto "http://localhost:4173" (Some 60000) ;;
        try_except
          ( page_wait_for_selector "text=ROCKHOUND" 10000 ;;
            print "App loaded successfully (Auth screen)" ;;
            page_screenshot "verification/fixed_load.png" )
          ( try_except
              ( page_wait_for_selector "text=SYSTEM ACTIVE" 10000 ;;
                print "App loaded successfully (Scanner)" ;;
                page_screenshot "verification/fixed_load.png" )
              ( print "Still stuck or unknown state" ;;
                page_screenshot "verification/still_stuck.png" ;;
                content <- page_content ;;
                print (slice_to 500 content) ) ) )
      ( fun e => print ("Error: " +:+ str e) )
      browser_close ).

(** A run of a script from the empty history. *)
Definition result_of {A} (m : M A) (o : oracle) : outcome A := fst (m o []).
Definition trace_of {A} (m : M A) (o : oracle) : list event := snd (m o []).

Definition all_scripts (P : M unit -> Prop) : Prop :=
  P verify_app /\ P verify_app_revolutionary /\ P verify_app_debug /\ P verify_fix.

(** ** Reading a trace *)

Definition returned {A} (r : exn + A) : bool :=
  match r with
  | inl _ => false
  | inr _ => true
  end.

(** The exception an event raised, if it is a call that raised. *)
Definition raised (ev : event) : option exn :=
  match ev with
  | Call _ (inl e) => Some e
  | _ => None
  end.


Definition is_close (ev : event) : bool :=
  match ev with
  | Call c _ => match c with BrowserClose => true | _ => false end
  | Printed _ => false
  end.

Definition new_page_returned (ev : event) : bool :=
  match ev with
  | Call c r => match c with NewPage => returned r | _ => false end
  | Printed _ => false
  end.

(** Selector of a [wait_for_selector] call, whatever its outcome. *)
Definition wait_selector (ev : event) : option string :=
  match ev with
  | Call c _ => match c with WaitForSelector sel _ => Some sel | _ => None end
  | Printed _ => None
  end.

(** Path of a [screenshot] call, whatever its outcome. *)
Definition screenshot_path (ev : event) : option string :=
  match ev with
  | Call c _ => match c with Screenshot path => Some path | _ => None end
  | Printed _ => None
  end.

(** Path of a [screenshot] call that returned: the file was written. *)
Definition written_path (ev : event) : option string :=
  match ev with
  | Call c r =>
      match c with
      | Screenshot path => if returned r then Some path else None
      | _ => None
      end
  | Printed _ => None
  end.

(** A [fill] or a [click]. *)
Definition is_interaction (ev : event) : bool :=
  match ev with
  | Call c _ => match c with Fill _ _ | Click _ => true | _ => false end
  | Printed _ => false
  end.

Definition mem (s : string) (l : list string) : bool := existsb (String.eqb s) l.

Definition count_if (p : event -> bool) (t : list event) : nat :=
  length (List.filter p t).

Definition page_created (t : list event) : bool := existsb new_page_returned t.
Definition closes (t : list event) : nat := count_if is_close t.
Definition waits (t : list event) : list string := omap wait_selector t.
Definition screenshots (t : list event) : list string := omap screenshot_path t.
Definition written (t : list event) : list string := omap written_path t.

(** ** Monitors

    A monitor reads a trace event by event.  A script is explored once per
    monitor, over every answer the oracle can give, with the monitor's
    state in place of the trace. *)

Section Monitor.
Context {St : Type} (step : St -> event -> St).

Definition observe (q : St) (t : list event) : St := fold_left step t q.

(** From monitor state [q], [m] ends in a state satisfying [N] when it
    returns and [R] when it raises, whatever the oracle and the past. *)
Definition triple {A} (q : St) (m : M A)
    (N : A -> St -> Prop) (R : exn -> St -> Prop) : Prop :=
  forall o h,
    match m o h with
    | (Normal a, t) => N a (observe q t)
    | (Raise e, t) => R e (observe q t)
    end.
End Monitor.

Definition step_pair {S1 S2} (s1 : S1 -> event -> S1) (s2 : S2 -> event -> S2)
    (q : S1 * S2) (ev : event) : S1 * S2 :=
  (s1 (fst q) ev, s2 (snd q) ev).

Definition count_step (p : event -> bool) (n : nat) (ev : event) : nat :=
  if p ev then S n else n.

Definition all_step (p : event -> bool) (b : bool) (ev : event) : bool := b && p ev.

Definition any_step (p : event -> bool) (b : bool) (ev : event) : bool := b || p ev.

Definition omap_step {B} (f : event -> option B) (l : list B) (ev : event) : list B :=
  match f ev with
  | Some b => l ++ [b]
  | None => l
  end.

(** The first event satisfying [F], with the events after it. *)
Definition after_step (F : event -> bool)
    (q : option (event * list event)) (ev : event) : option (event * list event) :=
  match q with
  | Some (ev0, suffix) => Some (ev0, suffix ++ [ev])
  | None => if F ev then Some (ev, []) else None
  end.

Definition after_first (F : event -> bool) (t : list event) : option (event * list event) :=
  observe (after_step F) None t.

(** Has an [A] event been seen, and was every [B] event so far preceded by
    one. *)
Definition precedes_step (A B : event -> bool) (q : bool * bool) (ev : event) : bool * bool :=
  (fst q || A ev, snd q && (negb (B ev) || fst q)).


(** ** Concrete pages

    Oracles for the concrete runs: every call returns, except the calls a
    failure plan picks out. *)

Definition default_reply {A} (c : call A) : A :=
  match c in call A return A with
  | IsVisible _ => true
  | Title => "ROCKHOUND"
  | Content => "<html><body>SYSTEM ACTIVE</body></html>"
  | _ => tt
  end.

Definition plan : Type := forall A : Type, call A -> option exn.

Definition page_with (fails : plan) : oracle :=
  fun A _ c =>
    match fails A c with
    | Some e => inl e
    | None => inr (default_reply c)
    end.

Definition no_failure : plan := fun _ _ => None.

Definition wait_fails (selector : string) (e : exn) : plan :=
  fun _ c =>
    match c with
    | WaitForSelector sel _ => if String.eqb sel selector then Some e else None
    | _ => None
    end.

Definition screenshot_fails (file : string) (e : exn) : plan :=
  fun _ c =>
    match c with
    | Screenshot path => if String.eqb path file then Some e else None
    | _ => None
    end.

Definition goto_fails (e : exn) : plan :=
  fun _ c =>
    match c with
    | Goto _ _ => Some e
    | _ => None
    end.

Definition both (p1 p2 : plan) : plan :=
  fun A c =>
    match p1 A c with
    | Some e => Some e
    | None => p2 A c
    end.

Definition timeout_of (ms : string) : exn :=
  Exn TimeoutError ("Timeout " +:+ ms +:+ "ms exceeded.").

(** ** Monitors of the claims *)

(** The last two events of a trace. *)
Definition last2 : Type := option event * option event.

Definition last2_step (l : last2) (ev : event) : last2 := (snd l, Some ev).

(** Monitor of C1: was the page created, how often was the browser closed, and how
    does the trace end. *)
Definition close_monitor : bool * nat * last2 -> event -> bool * nat * last2 :=
  step_pair (step_pair (any_step new_page_returned) (count_step is_close)) last2_step.

Definition closed_once (q : bool * nat * last2) : Prop :=
  fst (fst q) = true ->
  snd (fst q) = 1%nat /\
  exists rc rx,
    snd q = (Some (Call BrowserClose rc), Some (Call SyncPlaywrightExit rx)).

(** A run that returns has created its page, and closed the browser once. *)
Definition returned_closed (q : bool * nat * last2) : Prop :=
  fst (fst q) = true /\ closed_once q.

(** Inside the try suite: the page exists and the browser is still open. *)
Definition browser_open (q : bool * nat * last2) : Prop := fst q = (true, 0%nat).

(** Every [F] event is followed by events satisfying [K]: the state of
    [after_step F] beside a second monitor. *)
Definition followed {S2} (F : event -> bool) (K : event -> list event -> S2 -> Prop)
    (q : option (event * list event) * S2) : Prop :=
  match fst q with
  | Some (ev0, suffix) =>
      K ev0 suffix (snd q) /\ forallb (fun x => negb (F x)) suffix = true
  | None => True
  end.

Definition no_monitor (q : unit) (ev : event) : unit := q.


Definition is_screenshot_of (file : string) (ev : event) : bool :=
  match screenshot_path ev with
  | Some path => String.eqb path file
  | None => false
  end.

(** The waits outside every bare [except] block. *)
Definition verify_app_mandatory : list string :=
  ["text=SYSTEM ACTIVE"; "text=Operative Profile"; "text=Vault"].
Definition verify_app_revolutionary_mandatory : list string :=
  ["text=SYSTEM ACTIVE"; "text=Mainframe Control"; "text=Planetary Conditions"].
Definition verify_app_debug_mandatory : list string := ["body"].



(** The outcome when [e2] is pending while the cleanup runs. *)
Definition propagated (e2 : exn) (rc rx : exn + unit) : outcome unit :=
  match rx, rc with
  | inl e, _ => Raise e
  | inr _, inl e => Raise e
  | inr _, inr _ => Raise e2
  end.






(** The pages of the concrete runs. *)
Definition every_call_returns : oracle := page_with no_failure.
Definition vault_times_out : oracle :=
  page_with (wait_fails "text=Vault" (timeout_of "5000")).

(** A standard output that takes ASCII only: the write of any other text
    raises [UnicodeEncodeError]. *)
Definition stdout_is_ascii : plan :=
  fun _ c =>
    match c with
    | StdoutWrite _ => Some (Exn OtherException "'ascii' codec can't encode character")
    | _ => None
    end.

(** The UTF-8 bytes of U+2550, a character outside ASCII. *)
Definition box_char : string :=
  String "226"%char (String "149"%char (String "144"%char EmptyString)).

Definition vault_times_out_unprintable : oracle :=
  page_with (both (wait_fails "text=Vault" (Exn TimeoutError ("Timeout 5000ms exceeded. " +:+ box_char)))
                  stdout_is_ascii).

(** A call picked out by [blk] that raised. *)
Definition call_raised (blk : forall A, call A -> bool) (ev : event) : bool :=
  match ev with
  | Call c r => negb (returned r) && blk _ c
  | Printed _ => false
  end.







Definition server_down : oracle :=
  page_with (goto_fails (Exn PlaywrightError "net::ERR_CONNECTION_REFUSED")).

Definition page_crashed : oracle :=
  page_with (both (wait_fails "text=SYSTEM ACTIVE" (timeout_of "10000"))
                  (screenshot_fails "verification/error.png"
                     (Exn PlaywrightError "Target page, context or browser has been closed"))).

(** The calls of each try suite that are outside every bare [except]
    block: what they raise reaches [except Exception as e]. *)
Definition verify_app_unguarded (A : Type) (c : call A) : bool :=
  match c with
  | Goto _ _ => true
  | WaitForSelector sel _ => mem sel verify_app_mandatory
  | Screenshot path =>
      mem path ["verification/2_scanner_view.png"; "verification/3_profile_view.png";
                "verification/4_collection_view.png"]
  | Click sel =>
      mem sel ["header div.cursor-pointer"; "button:has(svg.lucide-x)";
               "button:has(svg.lucide-box)"]
  | _ => false
  end.

Definition verify_app_revolutionary_unguarded (A : Type) (c : call A) : bool :=
  match c with
  | Goto _ _ => true
  | WaitForSelector sel _ => mem sel verify_app_revolutionary_mandatory
  | Screenshot path =>
      mem path ["verification/3_scanner_hud.png"; "verification/4_admin_dashboard.png";
                "verification/5_weather_dashboard.png"]
  | Click sel =>
      mem sel ["header button:has(svg.lucide-terminal)"; "button:has(svg.lucide-arrow-left)";
               "header button:has(svg.lucide-cloud-sun)"]
  | _ => false
  end.

Definition verify_app_debug_unguarded (A : Type) (c : call A) : bool :=
  match c with
  | Goto _ _ => true
  | WaitForSelector sel _ => mem sel verify_app_debug_mandatory
  | Screenshot path => String.eqb path "verification/debug_state.png"
  | Title => true
  | Content => true
  | _ => false
  end.

(** In [verify_fix.py] both waits and both [fixed_load.png] screenshots
    are guarded; the last fallback is not. *)
Definition verify_fix_unguarded (A : Type) (c : call A) : bool :=
  match c with
  | Goto _ _ => true
  | Screenshot path => String.eqb path "verification/still_stuck.png"
  | Content => true
  | _ => false
  end.

(** Used by C4: the handler's first statement follows. *)
Definition reaches_handler (ev : event) (suffix : list event) (_ : unit) : Prop :=
  forall e, raised ev = Some e -> is_Exception e = true ->
    exists more, suffix = Printed ("Error: " +:+ str e) :: more.

(** Used by C5: the calls whose exception nothing catches: setting up and tearing
    down the browser, and the screenshot inside the handler. *)
Definition uncaught_call (A : Type) (c : call A) : bool :=
  match c with
  | SyncPlaywrightEnter | SyncPlaywrightExit | ChromiumLaunch _ | NewPage | BrowserClose => true
  | Screenshot path => mem path ["verification/error.png"; "verification/error_rev.png"]
  | _ => false
  end.

(** The prints of non-literal text in a try suite, outside every bare
    [except] block: the title and the content snippet that
    [verify_app_debug.py] reports.  The other scripts have none: in
    [verify_app.py] and [verify_revolutionary.py] the only such print is
    the handler's own. *)
Definition no_report (text : string) : bool := false.



(** An event that does not make the script raise: anything that returns,
    anything a call raised inside a bare [except] block, an [Exception]
    raised by an unguarded call of the try suite or by the write of one of
    its reports.  A write that raises anywhere else, the handler's own
    print first of all, is not benign. *)
Definition benign (unguarded : forall A, call A -> bool) (report : string -> bool)
    (ev : event) : bool :=
  match ev with
  | Call c (inl e) =>
      match c with
      | StdoutWrite text => report text && is_Exception e
      | _ =>
          if uncaught_call _ c then false
          else if unguarded _ c then is_Exception e
          else true
      end
  | _ => true
  end.






(** The handler's print raises: the error text of the timeout is not
    ASCII and standard output takes ASCII only. *)
Definition scanner_times_out_unprintable : oracle :=
  page_with (both (wait_fails "text=SYSTEM ACTIVE"
                     (Exn TimeoutError ("Timeout 10000ms exceeded. " +:+ box_char)))
                  stdout_is_ascii).

(** Used by C8: the failure screenshot of the handler raised. *)
Definition screenshot_raised (file : string) (ev : event) : bool :=
  match ev with
  | Call c r => negb (returned r) && is_screenshot_of file (Call c r)
  | Printed _ => false
  end.

Definition escapes_after_close (result : outcome unit)
    (ev : event) (suffix : list event) (_ : unit) : Prop :=
  forall e2, raised ev = Some e2 ->
    exists rc rx,
      suffix = [Call BrowserClose rc; Call SyncPlaywrightExit rx] /\
      result = propagated e2 rc rx.

(** ** C6: the order of the steps *)










(** The markers of each script, in program order. *)
Definition verify_app_markers : list string :=
  ["text=Access Protocol"; "text=SYSTEM ACTIVE"; "text=Operative Profile"; "text=Vault"].
Definition verify_app_revolutionary_markers : list string :=
  ["text=INITIALIZING KERNEL..."; "text=ROCKHOUND"; "text=SYSTEM ACTIVE";
   "text=Mainframe Control"; "text=Planetary Conditions"].




Definition wait_returned (selector : string) (ev : event) : bool :=
  match ev with
  | Call c r =>
      match c with
      | WaitForSelector sel _ => returned r && String.eqb sel selector
      | _ => false
      end
  | Printed _ => false
  end.


(** ** C7: the screenshot files *)

(** The events of a run of [script] that starts after the events [h]. *)
Definition run_from {A} (m : M A) (o : oracle) (h : list event) : list event :=
  snd (m o h).

(** The screenshot directory is a set of file names; a screenshot that
    returns creates or overwrites its file. *)
Definition files_after (files : gset string) (t : list event) : gset string :=
  files ∪ list_to_set (written t).

Definition verify_app_paths : list string :=
  ["verification/1_auth_screen.png"; "verification/2_scanner_view.png";
   "verification/3_profile_view.png"; "verification/4_collection_view.png";
   "verification/error.png"].
Definition verify_app_revolutionary_paths : list string :=
  ["verification/1_splash.png"; "verification/2_auth.png";
   "verification/3_scanner_hud.png"; "verification/4_admin_dashboard.png";
   "verification/5_weather_dashboard.png"; "verification/error_rev.png"].
Definition verify_app_debug_paths : list string := ["verification/debug_state.png"].
Definition verify_fix_paths : list string :=
  ["verification/fixed_load.png"; "verification/still_stuck.png"].

Definition screenshot_within (paths : list string) (ev : event) : bool :=
  match screenshot_path ev with
  | Some path => mem path paths
  | None => true
  end.

(** A page that is up for the first run and down afterwards: once a
    browser has been closed, navigating fails. *)
Definition server_goes_down : oracle :=
  fun A h c =>
    if existsb is_close h
    then page_with (goto_fails (Exn PlaywrightError "net::ERR_CONNECTION_REFUSED")) A h c
    else page_with no_failure A h c.

(** ** C10: the debug script *)

Definition is_screenshot (ev : event) : bool :=
  match screenshot_path ev with
  | Some _ => true
  | None => false
  end.

(** What [verify_app_debug.py] does: it prints, starts and stops the
    browser, navigates, waits, takes a screenshot, reads title and
    content. *)
Definition debug_allowed (ev : event) : bool :=
  match ev with
  | Printed _ => true
  | Call c _ =>
      match c with
      | Fill _ _ | Click _ | IsVisible _ => false
      | _ => true
      end
  end.

Definition at_most_debug_state (q : list string) : Prop :=
  q = [] \/ q = ["verification/debug_state.png"].











(** ** Further properties of the scripts *)

(** No call of the event raised. *)
Definition no_raise (ev : event) : bool :=
  match raised ev with
  | Some _ => false
  | None => true
  end.

(** A run in which no call raised. *)
Definition quiet (t : list event) : bool := forallb no_raise t.

(** What [page.is_visible] answered. *)
Definition visible_answer (ev : event) : option bool :=
  match ev with
  | Call c r =>
      match c in call A return (exn + A -> option bool) with
      | IsVisible _ => fun r => match r with inr b => Some b | inl _ => None end
      | _ => fun _ => None
      end r
  | Printed _ => None
  end.

Definition visible_answers (t : list event) : list bool := omap visible_answer t.

(** Whether every call so far returned, with the waits, the screenshot
    calls and the answers of [page.is_visible] so far. *)
Definition quiet_state : Type := list string * list string * list bool.

Definition quiet_monitor : bool * quiet_state -> event -> bool * quiet_state :=
  step_pair (all_step no_raise)
    (step_pair (step_pair (omap_step wait_selector) (omap_step screenshot_path))
       (omap_step visible_answer)).

Definition quiet_in (states : list quiet_state) (q : bool * quiet_state) : Prop :=
  fst q = true -> In (snd q) states.

Definition not_quiet (q : bool * quiet_state) : Prop := fst q = false.

(** What a script does when nothing raises: its waits and its screenshots. *)
Definition verify_app_quiet : list string * list string :=
  (verify_app_markers,
   ["verification/1_auth_screen.png"; "verification/2_scanner_view.png";
    "verification/3_profile_view.png"; "verification/4_collection_view.png"]).

Definition verify_app_revolutionary_quiet (visible : bool) : list string * list string :=
  (verify_app_revolutionary_markers,
   if visible
   then ["verification/1_splash.png"; "verification/2_auth.png";
         "verification/3_scanner_hud.png"; "verification/4_admin_dashboard.png";
         "verification/5_weather_dashboard.png"]
   else ["verification/1_splash.png";
         "verification/3_scanner_hud.png"; "verification/4_admin_dashboard.png";
         "verification/5_weather_dashboard.png"]).

Definition verify_app_debug_quiet : list string * list string :=
  (["body"], ["verification/debug_state.png"]).

Definition verify_fix_quiet : list string * list string :=
  (["text=ROCKHOUND"], ["verification/fixed_load.png"]).

(** Starting and leaving playwright, launching the browser, creating the
    page. *)
Definition is_startup (ev : event) : bool :=
  match ev with
  | Call c _ =>
      match c with
      | SyncPlaywrightEnter | SyncPlaywrightExit | ChromiumLaunch _ | NewPage => true
      | _ => false
      end
  | Printed _ => false
  end.

(** Was the page created; were all events start-up calls; how many events. *)
Definition startup_monitor : bool * (bool * nat) -> event -> bool * (bool * nat) :=
  step_pair (any_step new_page_returned)
    (step_pair (all_step is_startup) (count_step (fun _ => true))).

Definition never_started (q : bool * (bool * nat)) : Prop :=
  fst q = false -> fst (snd q) = true /\ (snd (snd q) <= 4)%nat.

Definition started (q : bool * (bool * nat)) : Prop := fst q = true.

(** The target of the scripts: a headless browser on the local server. *)
Definition local_headless (ev : event) : bool :=
  match ev with
  | Call c _ =>
      match c with
      | Goto url _ => String.eqb url "http://localhost:4173"
      | ChromiumLaunch headless => headless
      | _ => true
      end
  | Printed _ => true
  end.

Definition is_goto (ev : event) : bool :=
  match ev with
  | Call c _ => match c with Goto _ _ => true | _ => false end
  | Printed _ => false
  end.

Definition target_monitor : bool * nat -> event -> bool * nat :=
  step_pair (all_step local_headless) (count_step is_goto).

Definition one_local_goto (q : bool * nat) : Prop := fst q = true /\ (snd q <= 1)%nat.

(** [verify_fix.py]: the files a run can leave. *)
Definition verify_fix_written : list (list string) :=
  [[]; ["verification/fixed_load.png"]; ["verification/still_stuck.png"]].

(** What follows an unguarded call that raised something [except
    Exception] does not catch. *)
Definition bypasses_handler (result : outcome unit)
    (ev : event) (suffix : list event) (_ : unit) : Prop :=
  forall e, raised ev = Some e -> is_Exception e = false ->
    exists rc rx,
      suffix = [Call BrowserClose rc; Call SyncPlaywrightExit rx] /\
      result = propagated e rc rx.

Definition interrupted : oracle :=
  page_with (wait_fails "text=Vault" (Exn KeyboardInterrupt "")).

Definition browser_missing : oracle :=
  page_with (fun _ c =>
               match c with
               | ChromiumLaunch _ => Some (Exn PlaywrightError "Executable does not exist")
               | _ => None
               end).

(** A [fill] of [value] into [selector] that returned. *)
Definition fill_returned (selector value : string) (ev : event) : bool :=
  match ev with
  | Call c r =>
      match c with
      | Fill sel v => returned r && String.eqb sel selector && String.eqb v value
      | _ => false
      end
  | Printed _ => false
  end.

Definition is_click_on (selector : string) (ev : event) : bool :=
  match ev with
  | Call c _ => match c with Click sel => String.eqb sel selector | _ => false end
  | Printed _ => false
  end.

(** The only things the scripts type: the admin e-mail into the e-mail
    field, the admin password into the password field. *)
Definition credentials_only (ev : event) : bool :=
  match ev with
  | Call c _ =>
      match c with
      | Fill sel v =>
          (String.eqb sel sel_email && String.eqb v "admin@rockhound.com")
          || (String.eqb sel sel_password && String.eqb v "admin")
      | _ => true
      end
  | Printed _ => true
  end.

(** Were both fields filled before every click on the submit button, and
    was every fill one of the credentials. *)
Definition login_monitor (submit : string) :
    (bool * bool) * ((bool * bool) * bool) -> event -> (bool * bool) * ((bool * bool) * bool) :=
  step_pair (precedes_step (fill_returned sel_email "admin@rockhound.com") (is_click_on submit))
    (step_pair (precedes_step (fill_returned sel_password "admin") (is_click_on submit))
       (all_step credentials_only)).

Definition login_in_order (q : (bool * bool) * ((bool * bool) * bool)) : Prop :=
  snd (fst q) = true /\ snd (fst (snd q)) = true /\ snd (snd q) = true.

(** [verify_fix.py]: was [fixed_load.png] written, was [still_stuck.png]
    attempted, and the waits so far. *)
Definition fallback_monitor :
    bool * (bool * list string) -> event -> bool * (bool * list string) :=
  step_pair
    (any_step (fun ev => match written_path ev with
                         | Some path => String.eqb path "verification/fixed_load.png"
                         | None => false
                         end))
    (step_pair (any_step (is_screenshot_of "verification/still_stuck.png"))
       (omap_step wait_selector)).

Definition last_resort (q : bool * (bool * list string)) : Prop :=
  fst (snd q) = true ->
  fst q = false /\ snd (snd q) = ["text=ROCKHOUND"; "text=SYSTEM ACTIVE"].





















Definition button_hidden : oracle :=
  fun A h c =>
    match c in call A return exn + A with
    | IsVisible _ => inr false
    | c' => inr (default_reply c')
    end.




(** A fill (field and value) or a click (element). *)
Definition interaction_of (ev : event) : option (string * option string) :=
  match ev with
  | Call c _ =>
      match c with
      | Fill sel value => Some (sel, Some value)
      | Click sel => Some (sel, None)
      | _ => None
      end
  | Printed _ => None
  end.

Definition interactions (t : list event) : list (string * option string) :=
  omap interaction_of t.

(** The fills and clicks of the scripts, in program order. *)
Definition verify_app_interactions : list (string * option string) :=
  [(sel_email, Some "admin@rockhound.com"); (sel_password, Some "admin");
   (sel_has_text "Initialize Session", None);
   ("header div.cursor-pointer", None);
   ("button:has(svg.lucide-x)", None);
   ("button:has(svg.lucide-box)", None)].

Definition verify_app_revolutionary_interactions : list (string * option string) :=
  [(sel_email, Some "admin@rockhound.com"); (sel_password, Some "admin");
   (sel_has_text "Authenticate", None);
   ("header button:has(svg.lucide-terminal)", None);
   ("button:has(svg.lucide-arrow-left)", None);
   ("header button:has(svg.lucide-cloud-sun)", None)].




(** A page whose content is not ASCII, on a standard output that takes
    ASCII only. *)
Definition unprintable_page : oracle :=
  fun A h c =>
    match c in call A return exn + A with
    | Content => inr ("<html><body>" +:+ box_char +:+ " SYSTEM ACTIVE</body></html>")
    | StdoutWrite _ => inl (Exn OtherException "'ascii' codec can't encode character")
    | c' => inr (default_reply c')
    end.

Definition both_waits_fail : oracle :=
  page_with (both (wait_fails "text=ROCKHOUND" (timeout_of "10000"))
                  (wait_fails "text=SYSTEM ACTIVE" (timeout_of "10000"))).
(** * Proofs *)

(** ** Rules for exploring a script under a monitor *)

Section MonitorRules.
Context {St : Type} (step : St -> event -> St).

Lemma observe_app q t1 t2 :
  observe step q (t1 ++ t2) = observe step (observe step q t1) t2.
Proof. apply fold_left_app. Qed.

Lemma triple_ret {A} q (a : A) N R : N a q -> triple step q (ret a) N R.
Proof. intros H o h. exact H. Qed.

Lemma triple_print_ascii q s N R :
  ascii_only s = true ->
  N tt (step q (Printed s)) -> triple step q (print s) N R.
Proof. intros Ha H o h. unfold print. rewrite Ha. exact H. Qed.

Lemma triple_print q s N R :
  (ascii_only s = true -> N tt (step q (Printed s))) ->
  (ascii_only s = false ->
   (forall a, N a (step (step q (Printed s)) (Call (StdoutWrite s) (inr a)))) /\
   (forall e, R e (step (step q (Printed s)) (Call (StdoutWrite s) (inl e))))) ->
  triple step q (print s) N R.
Proof.
  intros Ha Hn o h. unfold print. destruct (ascii_only s).
  - now apply Ha.
  - destruct (Hn eq_refl) as [HN HR].
    destruct (o unit (h ++ [Printed s]) (StdoutWrite s)); simpl; auto.
Qed.

Lemma triple_invoke {A} q (c : call A) N R :
  (forall a, N a (step q (Call c (inr a)))) ->
  (forall e, R e (step q (Call c (inl e)))) ->
  triple step q (invoke c) N R.
Proof. intros HN HR o h. unfold invoke. destruct (o A h c); simpl; auto. Qed.

Lemma triple_bind {A B} q (m : M A) (f : A -> M B) N R :
  triple step q m (fun a q' => triple step q' (f a) N R) R ->
  triple step q (bind m f) N R.
Proof.
  intros H o h. unfold bind. specialize (H o h).
  destruct (m o h) as [[a|e] t1]; auto.
  specialize (H o (h ++ t1)). destruct (f a o (h ++ t1)) as [r t2].
  rewrite observe_app. exact H.
Qed.

Lemma triple_try_except {A} q (body handler : M A) N R :
  triple step q body N (fun _ q' => triple step q' handler N R) ->
  triple step q (try_except body handler) N R.
Proof.
  intros H o h. unfold try_except. specialize (H o h).
  destruct (body o h) as [[a|e] t1]; auto.
  specialize (H o (h ++ t1)). destruct (handler o (h ++ t1)) as [r t2].
  rewrite observe_app. exact H.
Qed.

Lemma triple_try_except_Exception {A} q (body : M A) handler N R :
  triple step q body N
    (fun e q' => if is_Exception e then triple step q' (handler e) N R else R e q') ->
  triple step q (try_except_Exception body handler) N R.
Proof.
  intros H o h. unfold try_except_Exception. specialize (H o h).
  destruct (body o h) as [[a|e] t1]; auto.
  destruct (is_Exception e); auto.
  specialize (H o (h ++ t1)). destruct (handler e o (h ++ t1)) as [r t2].
  rewrite observe_app. exact H.
Qed.

Lemma triple_try_finally {A} q (body : M A) cleanup N R :
  triple step q body
    (fun a q' => triple step q' cleanup (fun _ => N a) R)
    (fun e q' => triple step q' cleanup (fun _ => R e) R) ->
  triple step q (try_finally body cleanup) N R.
Proof.
  intros H o h. unfold try_finally. specialize (H o h).
  destruct (body o h) as [[a|e] t1];
    specialize (H o (h ++ t1)); destruct (cleanup o (h ++ t1)) as [[[]|e'] t2];
    rewrite observe_app; exact H.
Qed.

(** A cut after [m]: the rest of the script is explored once per state
    in [J], not once per path through [m]. *)
Lemma triple_join {A B} q (m : M A) (f : A -> M B) (J : St -> Prop) N R :
  triple step q m (fun _ => J) R ->
  (forall a q', J q' -> triple step q' (f a) N R) ->
  triple step q (bind m f) N R.
Proof.
  intros Hm Hf. apply triple_bind. intros o h. specialize (Hm o h).
  destruct (m o h) as [[a|e] t]; [|exact Hm]. now apply Hf.
Qed.

(** What a triple says about a run of the whole script. *)
Lemma triple_run {A} q (m : M A) N R (o : oracle) :
  triple step q m N R ->
  match result_of m o with
  | Normal a => N a (observe step q (trace_of m o))
  | Raise e => R e (observe step q (trace_of m o))
  end.
Proof.
  intros H. specialize (H o []). unfold result_of, trace_of.
  destruct (m o []) as [[a|e] t]; exact H.
Qed.

(** The same when the outcome does not matter. *)
Lemma triple_trace {A} q (m : M A) (Q : St -> Prop) (o : oracle) (h : list event) :
  triple step q m (fun _ => Q) (fun _ => Q) -> Q (observe step q (snd (m o h))).
Proof.
  intros H. specialize (H o h). destruct (m o h) as [[a|e] t]; exact H.
Qed.
End MonitorRules.

Ltac unfold_calls :=
  unfold with_sync_playwright, try_except_finally, chromium_launch,
    browser_new_page, browser_close, page_goto, page_wait_for_selector,
    page_screenshot, page_fill, page_click, page_is_visible, page_title,
    page_content.

(** Evaluate the monitor state of the current triple. *)
Ltac norm_state :=
  cbv beta;
  lazymatch goal with
  | |- @triple ?St ?step ?A ?q ?m ?N ?R =>
      let q' := eval cbv -[is_Exception] in q in
      change (@triple St step A q' m N R)
  | _ => idtac
  end.

Ltac triple_step :=
  lazymatch goal with
  | |- triple _ _ (bind (try_except _ _) _) _ _ => fail
  | |- triple _ _ (bind _ _) _ _ => apply triple_bind
  | |- triple _ _ (ret _) _ _ => apply triple_ret
  | |- triple _ _ (print ?s) _ _ =>
      let b := eval cbv in (ascii_only s) in
      lazymatch b with
      | true => apply triple_print_ascii; [reflexivity|]
      | _ => apply triple_print; [intros ? | intros ?; split; [intros [] | intros ?]]
      end
  | |- triple _ _ (invoke _) _ _ => apply triple_invoke; [intros ? | intros ?]
  | |- triple _ _ (try_except _ _) _ _ => apply triple_try_except
  | |- triple _ _ (try_except_Exception _ _) _ _ => apply triple_try_except_Exception
  | |- triple _ _ (try_finally _ _) _ _ => apply triple_try_finally
  | |- triple _ _ (if ?b then _ else _) _ _ => destruct b eqn:?
  | |- if is_Exception ?e then triple _ ?q _ _ _ else _ =>
      let q' := eval cbv -[is_Exception] in q in
      change q with q'; destruct (is_Exception e) eqn:?
  end; norm_state.

(** Explore every path of a script up to the end of the next optional
    block; the leaves are the postconditions at the final monitor states.
    An optional block followed by more steps is left for [join]. *)
Ltac explore := unfold_calls; repeat triple_step; cbv beta.

Ltac join J := apply (triple_join _ _ _ _ J).

(** ** What the monitors compute *)

Lemma observe_pair {S1 S2} (s1 : S1 -> event -> S1) (s2 : S2 -> event -> S2) q1 q2 t :
  observe (step_pair s1 s2) (q1, q2) t = (observe s1 q1 t, observe s2 q2 t).
Proof.
  revert q1 q2. induction t as [|ev t IH]; intros q1 q2; simpl; [reflexivity|].
  unfold step_pair at 2. simpl. apply IH.
Qed.

Lemma observe_count p n t : observe (count_step p) n t = (n + count_if p t)%nat.
Proof.
  revert n. unfold count_if.
  induction t as [|ev t IH]; intros n; simpl; [lia|].
  rewrite IH. unfold count_step. destruct (p ev); simpl; lia.
Qed.

Lemma observe_all p b t : observe (all_step p) b t = b && forallb p t.
Proof.
  revert b. induction t as [|ev t IH]; intros b; simpl.
  - now rewrite andb_true_r.
  - rewrite IH. unfold all_step. now rewrite andb_assoc.
Qed.

Lemma observe_any p b t : observe (any_step p) b t = b || existsb p t.
Proof.
  revert b. induction t as [|ev t IH]; intros b; simpl.
  - now rewrite orb_false_r.
  - rewrite IH. unfold any_step. now rewrite orb_assoc.
Qed.

Lemma observe_omap {B} (f : event -> option B) l t :
  observe (omap_step f) l t = l ++ omap f t.
Proof.
  revert l. induction t as [|ev t IH]; intros l; simpl.
  - now rewrite app_nil_r.
  - rewrite IH. unfold omap_step. destruct (f ev); simpl; [|reflexivity].
    now rewrite <- app_assoc.
Qed.

Lemma observe_after_some F ev0 suffix t :
  observe (after_step F) (Some (ev0, suffix)) t = Some (ev0, suffix ++ t).
Proof.
  revert suffix. induction t as [|ev t IH]; intros suffix; simpl.
  - now rewrite app_nil_r.
  - rewrite IH. now rewrite <- app_assoc.
Qed.

Lemma after_first_cons F ev t :
  after_first F (ev :: t) = if F ev then Some (ev, t) else after_first F t.
Proof.
  unfold after_first. simpl. destruct (F ev); [|reflexivity].
  apply observe_after_some.
Qed.

(** If the events after the first [F] event hold no [F] event, then every
    [F] event of the trace is that first one. *)
Lemma after_first_split F t pre ev post :
  t = pre ++ ev :: post -> F ev = true ->
  match after_first F t with
  | Some (ev0, suffix) => forallb (fun x => negb (F x)) suffix = true -> ev0 = ev /\ suffix = post
  | None => False
  end.
Proof.
  intros -> HF. induction pre as [|x pre IH]; simpl.
  - rewrite after_first_cons, HF. auto.
  - rewrite after_first_cons. destruct (F x) eqn:Hx; [|exact IH].
    intros Hall. rewrite forallb_app in Hall. simpl in Hall. rewrite HF in Hall.
    simpl in Hall. rewrite andb_false_r in Hall. discriminate.
Qed.

(** The shape in which the claims are stated: every [F] event of the trace
    is followed by events satisfying [K]. *)
Lemma after_first_all F (K : event -> list event -> Prop) t :
  match after_first F t with
  | Some (ev0, suffix) => K ev0 suffix /\ forallb (fun x => negb (F x)) suffix = true
  | None => True
  end ->
  forall pre ev post, t = pre ++ ev :: post -> F ev = true -> K ev post.
Proof.
  intros H pre ev post Ht HF.
  pose proof (after_first_split F t pre ev post Ht HF) as Hs.
  destruct (after_first F t) as [[ev0 suffix]|]; [|contradiction].
  destruct H as [HK Hall]. destruct (Hs Hall) as [-> ->]. exact HK.
Qed.

Lemma observe_precedes A B seen ok t :
  snd (observe (precedes_step A B) (seen, ok) t) = true ->
  ok = true /\
  forall pre ev post, t = pre ++ ev :: post -> B ev = true ->
    seen = true \/ exists ev', In ev' pre /\ A ev' = true.
Proof.
  revert seen ok. induction t as [|x t IH]; intros seen ok; simpl.
  - intros ->. split; [reflexivity|]. intros [|? ?] ? ? ?; discriminate.
  - unfold precedes_step at 2. simpl. intros H.
    destruct (IH _ _ H) as [Hok Hrest].
    apply andb_true_iff in Hok. destruct Hok as [-> Hx]. split; [reflexivity|].
    intros pre ev post Heq HB. destruct pre as [|y pre]; simpl in Heq.
    + injection Heq as <- <-. rewrite HB in Hx. simpl in Hx. now left.
    + injection Heq as <- ->.
      destruct (Hrest pre ev post eq_refl HB) as [Hs | (ev' & Hin & HA)].
      * apply orb_true_iff in Hs. destruct Hs as [Hs | Hs]; [now left|].
        right. exists x. split; [now left | exact Hs].
      * right. exists ev'. split; [now right | exact HA].
Qed.


Lemma mem_In s l : mem s l = true <-> In s l.
Proof.
  unfold mem. rewrite existsb_exists. split.
  - intros (x & Hin & Heq). apply String.eqb_eq in Heq. now subst.
  - intros Hin. exists s. split; [exact Hin | apply String.eqb_refl].
Qed.


(** From an exploration under [after_step F] to the statement about every
    [F] event of a run. *)
Lemma followed_run {S2} F (s2 : S2 -> event -> S2) q2 (script : M unit)
    (K : outcome unit -> event -> list event -> S2 -> Prop) (o : oracle) :
  triple (step_pair (after_step F) s2) (None, q2) script
    (fun a => followed F (K (Normal a))) (fun e => followed F (K (Raise e))) ->
  forall pre ev post,
    trace_of script o = pre ++ ev :: post -> F ev = true ->
    K (result_of script o) ev post (observe s2 q2 (trace_of script o)).
Proof.
  intros H pre ev post Ht HF.
  apply (triple_run _ _ _ _ _ o) in H.
  rewrite observe_pair in H. unfold followed in H. simpl in H.
  fold (after_first F (trace_of script o)) in H.
  refine (after_first_all F
            (fun ev post => K (result_of script o) ev post
                              (observe s2 q2 (trace_of script o)))
            (trace_of script o) _ pre ev post Ht HF).
  destruct (result_of script o); exact H.
Qed.

(** Evaluate the final monitor state at a leaf of [followed]. *)
Ltac followed_leaf :=
  unfold followed;
  lazymatch goal with
  | |- context [step_pair ?s1 ?s2 ?q ?ev] =>
      let v := eval cbv in (step_pair s1 s2 q ev) in
      change (step_pair s1 s2 q ev) with v
  | _ => idtac
  end;
  cbv beta iota delta [fst snd];
  first [ exact I | split; [ | reflexivity ] ].

(** Cut at one of finitely many monitor states. *)
Ltac join_at states := join (fun q => In q states).

Ltac at_leaf := cbv -[is_Exception]; repeat (first [left; reflexivity | right]).

Ltac from_states :=
  let H := fresh "H" in
  intros ? ? H; cbv [In] in H;
  repeat (destruct H as [H | H]; [subst|]); try contradiction.

(** Leaves of the explorations: the final state is the expected one; the
    events after the first [F] event start as expected. *)
Ltac same_leaf := cbv; reflexivity.



(** ** C1: the browser is closed exactly once *)

Lemma observe_snoc {St} (step : St -> event -> St) q t ev :
  observe step q (t ++ [ev]) = step (observe step q t) ev.
Proof. now rewrite observe_app. Qed.

Lemma observe_last2 t a b :
  observe last2_step (None, None) t = (Some a, Some b) ->
  exists pre, t = pre ++ [a; b].
Proof.
  destruct t as [|y t _] using rev_ind; [discriminate|].
  destruct t as [|x t _] using rev_ind; [discriminate|].
  rewrite !observe_snoc. unfold last2_step. simpl. intros [= <- <-].
  exists t. now rewrite <- app_assoc.
Qed.

Ltac close_leaf :=
  cbv; intros ?; first [discriminate | split; [reflexivity | eauto]].

(** A leaf where the script returns: the page was created as well. *)
Ltac return_leaf :=
  lazymatch goal with
  | |- returned_closed _ => split; [reflexivity | close_leaf]
  | |- _ => close_leaf
  end.

Ltac open_leaf := cbv; reflexivity.

Ltac from_open :=
  let q := fresh "q" in
  let H := fresh "H" in
  intros ? [[? ?] [? ?]] H; cbv in H; injection H as -> ->.

Lemma verify_app_close_once :
  triple close_monitor (false, 0%nat, (None, None)) verify_app
    (fun _ => returned_closed) (fun _ => closed_once).
Proof.
  unfold verify_app. explore; try return_leaf.
  join browser_open; [explore; open_leaf | from_open; explore; return_leaf].
Qed.

Lemma verify_app_revolutionary_close_once :
  triple close_monitor (false, 0%nat, (None, None)) verify_app_revolutionary
    (fun _ => returned_closed) (fun _ => closed_once).
Proof.
  unfold verify_app_revolutionary. explore; try return_leaf.
  join browser_open; [explore; open_leaf | from_open; explore; try return_leaf].
  join browser_open; [explore; open_leaf | from_open; explore; return_leaf].
Qed.

Lemma verify_app_debug_close_once :
  triple close_monitor (false, 0%nat, (None, None)) verify_app_debug
    (fun _ => returned_closed) (fun _ => closed_once).
Proof. unfold verify_app_debug. explore; return_leaf. Qed.

Lemma verify_fix_close_once :
  triple close_monitor (false, 0%nat, (None, None)) verify_fix
    (fun _ => returned_closed) (fun _ => closed_once).
Proof. unfold verify_fix. explore; return_leaf. Qed.

Lemma closed_once_trace t :
  closed_once (observe close_monitor (false, 0%nat, (None, None)) t) ->
  page_created t = true ->
  closes t = 1%nat /\
  exists pre rc rx,
    t = pre ++ [Call BrowserClose rc; Call SyncPlaywrightExit rx] /\
    closes pre = 0%nat.
Proof.
  intros H Hpage. unfold close_monitor, closed_once in H.
  rewrite !observe_pair, observe_any, observe_count in H. simpl in H.
  destruct (H Hpage) as [Hn (rc & rx & Hlast)]. split; [exact Hn|].
  destruct (observe_last2 _ _ _ Hlast) as [pre Hpre].
  exists pre, rc, rx. split; [exact Hpre|].
  rewrite Hpre in Hn. unfold closes, count_if in Hn |- *.
  rewrite List.filter_app, length_app in Hn. simpl in Hn. lia.
Qed.

Lemma close_once_run (script : M unit) (o : oracle) :
  triple close_monitor (false, 0%nat, (None, None)) script
    (fun _ => returned_closed) (fun _ => closed_once) ->
  (page_created (trace_of script o) = true ->
   closes (trace_of script o) = 1%nat /\
   exists pre rc rx,
     trace_of script o = pre ++ [Call BrowserClose rc; Call SyncPlaywrightExit rx] /\
     closes pre = 0%nat) /\
  (result_of script o = Normal tt ->
   page_created (trace_of script o) = true /\ closes (trace_of script o) = 1%nat).
Proof.
  intros H. apply (triple_run _ _ _ _ _ o) in H.
  destruct (result_of script o) as [[]|e].
  - destruct H as [Hpage H]. split.
    + now apply closed_once_trace.
    + intros _.
      assert (Hp : page_created (trace_of script o) = true).
      { unfold close_monitor in Hpage.
        rewrite !observe_pair, observe_any in Hpage. exact Hpage. }
      split; [exact Hp | exact (proj1 (closed_once_trace _ H Hp))].
  - split; [now apply closed_once_trace | discriminate].
Qed.

(** C1.  In every script, once [browser.new_page()] has returned, the run
    calls [browser.close()] exactly once, whatever returns or raises in
    between: the close is the last call before the playwright context is
    left, and no close happens before it.  A run that returns normally
    has created its page, so it has closed the browser exactly once; and
    each script does return normally when every call returns. *)
Theorem browser_closed_exactly_once :
  all_scripts (fun script =>
    (forall o,
       page_created (trace_of script o) = true ->
       closes (trace_of script o) = 1%nat /\
       exists pre rc rx,
         trace_of script o = pre ++ [Call BrowserClose rc; Call SyncPlaywrightExit rx] /\
         closes pre = 0%nat) /\
    (forall o,
       result_of script o = Normal tt ->
       page_created (trace_of script o) = true /\ closes (trace_of script o) = 1%nat) /\
    result_of script every_call_returns = Normal tt).
Proof.
  unfold all_scripts; refine (conj _ (conj _ (conj _ _)));
    (split; [|split; [|reflexivity]]); intros o.
  - apply close_once_run, verify_app_close_once.
  - apply close_once_run, verify_app_close_once.
  - apply close_once_run, verify_app_revolutionary_close_once.
  - apply close_once_run, verify_app_revolutionary_close_once.
  - apply close_once_run, verify_app_debug_close_once.
  - apply close_once_run, verify_app_debug_close_once.
  - apply close_once_run, verify_fix_close_once.
  - apply close_once_run, verify_fix_close_once.
Qed.

Lemma browser_closed_exactly_once_witness :
  (page_created (trace_of verify_app vault_times_out) = true /\
   closes (trace_of verify_app vault_times_out) = 1%nat) /\
  (result_of verify_app_revolutionary every_call_returns = Normal tt /\
   closes (trace_of verify_app_revolutionary every_call_returns) = 1%nat).
Proof.
  split.
  - split; [reflexivity|].
    apply (proj1 (proj1 browser_closed_exactly_once) vault_times_out).
    reflexivity.
  - split; [reflexivity|].
    apply (proj1 (proj2 (proj1 (proj2 browser_closed_exactly_once))) every_call_returns).
    reflexivity.
Defined.

(** ** C2: a mandatory wait that times out *)










(** The other case of C2: the error text is not ASCII and standard output
    cannot encode it.  The handler's print raises, no failure screenshot
    is attempted, the browser is closed and the [UnicodeEncodeError]
    leaves [verify_app]. *)
Lemma unprintable_error_skips_screenshot :
  skipn 19 (trace_of verify_app vault_times_out_unprintable) =
    [Call (WaitForSelector "text=Vault" 5000)
       (inl (Exn TimeoutError ("Timeout 5000ms exceeded. " +:+ box_char)));
     Printed ("Error: Timeout 5000ms exceeded. " +:+ box_char);
     Call (StdoutWrite ("Error: Timeout 5000ms exceeded. " +:+ box_char))
       (inl (Exn OtherException "'ascii' codec can't encode character"));
     Call BrowserClose (inr tt); Call SyncPlaywrightExit (inr tt)] /\
  result_of verify_app vault_times_out_unprintable
    = Raise (Exn OtherException "'ascii' codec can't encode character") /\
  count_if (is_screenshot_of "verification/error.png")
    (trace_of verify_app vault_times_out_unprintable) = 0%nat.
Proof. repeat split. Qed.


(** ** C3 and C9: the optional auth block *)









(** ** C4: what reaches the top-level handler *)

Ltac handler_leaf :=
  followed_leaf;
  intros ? [= <-] ?;
  first [ congruence | eexists; reflexivity ].

Lemma verify_app_reaches_handler :
  triple (step_pair (after_step (call_raised verify_app_unguarded)) no_monitor)
    (None, tt) verify_app
    (fun _ => followed (call_raised verify_app_unguarded) reaches_handler)
    (fun _ => followed (call_raised verify_app_unguarded) reaches_handler).
Proof.
  unfold verify_app. explore; try handler_leaf.
  join (eq (None (A := event * list event), tt));
    [explore; same_leaf | intros ? ? <-; explore; handler_leaf].
Qed.

Lemma verify_app_revolutionary_reaches_handler :
  triple (step_pair (after_step (call_raised verify_app_revolutionary_unguarded)) no_monitor)
    (None, tt) verify_app_revolutionary
    (fun _ => followed (call_raised verify_app_revolutionary_unguarded) reaches_handler)
    (fun _ => followed (call_raised verify_app_revolutionary_unguarded) reaches_handler).
Proof.
  unfold verify_app_revolutionary. explore; try handler_leaf.
  join (eq (None (A := event * list event), tt));
    [explore; same_leaf | intros ? ? <-; explore; try handler_leaf].
  join (eq (None (A := event * list event), tt));
    [explore; same_leaf | intros ? ? <-; explore; handler_leaf].
Qed.

Lemma verify_app_debug_reaches_handler :
  triple (step_pair (after_step (call_raised verify_app_debug_unguarded)) no_monitor)
    (None, tt) verify_app_debug
    (fun _ => followed (call_raised verify_app_debug_unguarded) reaches_handler)
    (fun _ => followed (call_raised verify_app_debug_unguarded) reaches_handler).
Proof. unfold verify_app_debug. explore; handler_leaf. Qed.

Lemma verify_fix_reaches_handler :
  triple (step_pair (after_step (call_raised verify_fix_unguarded)) no_monitor)
    (None, tt) verify_fix
    (fun _ => followed (call_raised verify_fix_unguarded) reaches_handler)
    (fun _ => followed (call_raised verify_fix_unguarded) reaches_handler).
Proof. unfold verify_fix. explore; handler_leaf. Qed.

Lemma call_raised_event blk A (c : call A) e :
  blk A c = true -> call_raised blk (Call c (inl e)) = true.
Proof. intros H. simpl. exact H. Qed.

(** C4, as amended.  In every script, whatever [Exception] a call of the
    try suite outside the bare [except] blocks raises reaches the
    top-level handler, whose first statement prints it: a marker timeout,
    and just as well a navigation error of [page.goto] or the failure of
    an unguarded click, screenshot, title or content call. *)
Theorem every_unguarded_failure_reaches_handler :
  (forall o pre A (c : call A) e post,
     trace_of verify_app o = pre ++ Call c (inl e) :: post ->
     verify_app_unguarded A c = true -> is_Exception e = true ->
     exists more, post = Printed ("Error: " +:+ str e) :: more) /\
  (forall o pre A (c : call A) e post,
     trace_of verify_app_revolutionary o = pre ++ Call c (inl e) :: post ->
     verify_app_revolutionary_unguarded A c = true -> is_Exception e = true ->
     exists more, post = Printed ("Error: " +:+ str e) :: more) /\
  (forall o pre A (c : call A) e post,
     trace_of verify_app_debug o = pre ++ Call c (inl e) :: post ->
     verify_app_debug_unguarded A c = true -> is_Exception e = true ->
     exists more, post = Printed ("Error: " +:+ str e) :: more) /\
  (forall o pre A (c : call A) e post,
     trace_of verify_fix o = pre ++ Call c (inl e) :: post ->
     verify_fix_unguarded A c = true -> is_Exception e = true ->
     exists more, post = Printed ("Error: " +:+ str e) :: more).
Proof.
  refine (conj _ (conj _ (conj _ _))); intros o pre A c e post Ht Hc He.
  - exact (followed_run _ _ _ _ (fun _ => reaches_handler) o
             verify_app_reaches_handler pre _ post Ht Hc e eq_refl He).
  - exact (followed_run _ _ _ _ (fun _ => reaches_handler) o
             verify_app_revolutionary_reaches_handler pre _ post Ht Hc e eq_refl He).
  - exact (followed_run _ _ _ _ (fun _ => reaches_handler) o
             verify_app_debug_reaches_handler pre _ post Ht Hc e eq_refl He).
  - exact (followed_run _ _ _ _ (fun _ => reaches_handler) o
             verify_fix_reaches_handler pre _ post Ht Hc e eq_refl He).
Qed.

Lemma every_unguarded_failure_reaches_handler_witness :
  exists more,
    skipn 4 (trace_of verify_app server_down)
    = Printed ("Error: " +:+ str (Exn PlaywrightError "net::ERR_CONNECTION_REFUSED")) :: more.
Proof.
  refine (proj1 every_unguarded_failure_reaches_handler server_down
            (firstn 3 (trace_of verify_app server_down))
            unit (Goto "http://localhost:4173" None)
            (Exn PlaywrightError "net::ERR_CONNECTION_REFUSED")
            (skipn 4 (trace_of verify_app server_down)) _ _ _); reflexivity.
Defined.

(** C4, as stated, fails: a navigation error is not a marker timeout, and
    it reaches the handler of [verify_app.py], which prints it and takes
    the failure screenshot. *)
Lemma navigation_error_reaches_handler :
  trace_of verify_app server_down =
    [Call SyncPlaywrightEnter (inr tt); Call (ChromiumLaunch true) (inr tt);
     Call NewPage (inr tt);
     Call (Goto "http://localhost:4173" None)
       (inl (Exn PlaywrightError "net::ERR_CONNECTION_REFUSED"));
     Printed "Error: net::ERR_CONNECTION_REFUSED";
     Call (Screenshot "verification/error.png") (inr tt);
     Call BrowserClose (inr tt); Call SyncPlaywrightExit (inr tt)] /\
  is_timeout (Exn PlaywrightError "net::ERR_CONNECTION_REFUSED") = false /\
  waits (trace_of verify_app server_down) = [].
Proof. repeat split. Qed.

(** ** C5: how the scripts return *)










(** The handler's own print is no safer: when the error text is not ASCII
    and standard output cannot encode it, the [UnicodeEncodeError] leaves
    [verify_app] before the failure screenshot is tried. *)
Lemma handler_print_failure_propagates :
  result_of verify_app scanner_times_out_unprintable
    = Raise (Exn OtherException "'ascii' codec can't encode character") /\
  skipn 10 (trace_of verify_app scanner_times_out_unprintable) =
    [Call (WaitForSelector "text=SYSTEM ACTIVE" 10000)
       (inl (Exn TimeoutError ("Timeout 10000ms exceeded. " +:+ box_char)));
     Printed ("Error: Timeout 10000ms exceeded. " +:+ box_char);
     Call (StdoutWrite ("Error: Timeout 10000ms exceeded. " +:+ box_char))
       (inl (Exn OtherException "'ascii' codec can't encode character"));
     Call BrowserClose (inr tt); Call SyncPlaywrightExit (inr tt)] /\
  forallb (benign verify_app_unguarded no_report)
    (trace_of verify_app scanner_times_out_unprintable) = false.
Proof. repeat split. Qed.

(** ** C8: the failure screenshot raises *)

Ltac escape_leaf :=
  followed_leaf;
  intros ? [= <-]; eexists; eexists; split; reflexivity.

Lemma verify_app_handler_escape :
  triple (step_pair (after_step (screenshot_raised "verification/error.png")) no_monitor)
    (None, tt) verify_app
    (fun a => followed (screenshot_raised "verification/error.png")
                (escapes_after_close (Normal a)))
    (fun e => followed (screenshot_raised "verification/error.png")
                (escapes_after_close (Raise e))).
Proof.
  unfold verify_app. explore; try escape_leaf.
  join (eq (None (A := event * list event), tt));
    [explore; same_leaf | intros ? ? <-; explore; escape_leaf].
Qed.

Lemma verify_app_revolutionary_handler_escape :
  triple (step_pair (after_step (screenshot_raised "verification/error_rev.png")) no_monitor)
    (None, tt) verify_app_revolutionary
    (fun a => followed (screenshot_raised "verification/error_rev.png")
                (escapes_after_close (Normal a)))
    (fun e => followed (screenshot_raised "verification/error_rev.png")
                (escapes_after_close (Raise e))).
Proof.
  unfold verify_app_revolutionary. explore; try escape_leaf.
  join (eq (None (A := event * list event), tt));
    [explore; same_leaf | intros ? ? <-; explore; try escape_leaf].
  join (eq (None (A := event * list event), tt));
    [explore; same_leaf | intros ? ? <-; explore; escape_leaf].
Qed.

Lemma propagated_raises e2 rc rx : exists e, propagated e2 rc rx = Raise e.
Proof. destruct rx, rc; simpl; eauto. Qed.

(** C8.  In [verify_app.py] and [verify_revolutionary.py], when the
    failure screenshot inside the handler raises, the only events after it
    are [browser.close()] and leaving the playwright context, and an
    exception leaves the function: the screenshot's own when the close and
    the context exit return, theirs when one of them raises in turn. *)
Theorem handler_screenshot_failure_escapes :
  (forall o pre e2 post,
     trace_of verify_app o
       = pre ++ Call (Screenshot "verification/error.png") (inl e2) :: post ->
     exists rc rx,
       post = [Call BrowserClose rc; Call SyncPlaywrightExit rx] /\
       result_of verify_app o = propagated e2 rc rx /\
       (returned rc = true -> returned rx = true -> result_of verify_app o = Raise e2) /\
       exists e, result_of verify_app o = Raise e) /\
  (forall o pre e2 post,
     trace_of verify_app_revolutionary o
       = pre ++ Call (Screenshot "verification/error_rev.png") (inl e2) :: post ->
     exists rc rx,
       post = [Call BrowserClose rc; Call SyncPlaywrightExit rx] /\
       result_of verify_app_revolutionary o = propagated e2 rc rx /\
       (returned rc = true -> returned rx = true ->
        result_of verify_app_revolutionary o = Raise e2) /\
       exists e, result_of verify_app_revolutionary o = Raise e).
Proof.
  split; intros o pre e2 post Ht.
  - destruct (followed_run _ _ _ _ escapes_after_close o
                verify_app_handler_escape pre _ post Ht eq_refl e2 eq_refl)
      as (rc & rx & Hpost & Hres).
    exists rc, rx. rewrite Hres. repeat split; [exact Hpost| |apply propagated_raises].
    destruct rc, rx; simpl; intros; congruence.
  - destruct (followed_run _ _ _ _ escapes_after_close o
                verify_app_revolutionary_handler_escape pre _ post Ht eq_refl e2 eq_refl)
      as (rc & rx & Hpost & Hres).
    exists rc, rx. rewrite Hres. repeat split; [exact Hpost| |apply propagated_raises].
    destruct rc, rx; simpl; intros; congruence.
Qed.

Lemma handler_screenshot_failure_escapes_witness :
  exists rc rx,
    skipn 13 (trace_of verify_app page_crashed)
      = [Call BrowserClose rc; Call SyncPlaywrightExit rx] /\
    result_of verify_app page_crashed
      = propagated (Exn PlaywrightError "Target page, context or browser has been closed") rc rx.
Proof.
  destruct (proj1 handler_screenshot_failure_escapes page_crashed
              (firstn 12 (trace_of verify_app page_crashed))
              (Exn PlaywrightError "Target page, context or browser has been closed")
              (skipn 13 (trace_of verify_app page_crashed)) eq_refl)
    as (rc & rx & Hpost & Hres & _).
  exists rc, rx. split; [exact Hpost | exact Hres].
Defined.

(** ** C6: the order of the steps *)


























(** ** C7: the screenshot files *)

Lemma verify_app_screenshot_paths :
  triple (all_step (screenshot_within verify_app_paths)) true verify_app
    (fun _ q => q = true) (fun _ q => q = true).
Proof.
  unfold verify_app. explore; try same_leaf.
  join (eq true); [explore; same_leaf | intros ? ? <-; explore; same_leaf].
Qed.

Lemma verify_app_revolutionary_screenshot_paths :
  triple (all_step (screenshot_within verify_app_revolutionary_paths)) true
    verify_app_revolutionary (fun _ q => q = true) (fun _ q => q = true).
Proof.
  unfold verify_app_revolutionary. explore; try same_leaf.
  join (eq true); [explore; same_leaf | intros ? ? <-; explore; try same_leaf].
  join (eq true); [explore; same_leaf | intros ? ? <-; explore; same_leaf].
Qed.

Lemma verify_app_debug_screenshot_paths :
  triple (all_step (screenshot_within verify_app_debug_paths)) true verify_app_debug
    (fun _ q => q = true) (fun _ q => q = true).
Proof. unfold verify_app_debug. explore; same_leaf. Qed.

Lemma verify_fix_screenshot_paths :
  triple (all_step (screenshot_within verify_fix_paths)) true verify_fix
    (fun _ q => q = true) (fun _ q => q = true).
Proof. unfold verify_fix. explore; same_leaf. Qed.

Lemma written_screenshots paths t :
  forallb (screenshot_within paths) t = true ->
  Forall (fun path => In path paths) (screenshots t) /\
  Forall (fun path => In path paths) (written t).
Proof.
  unfold screenshots, written. induction t as [|ev t IH]; simpl.
  - intros _. split; constructor.
  - intros H. apply andb_true_iff in H. destruct H as [Hev Ht].
    destruct (IH Ht) as [IH1 IH2]. unfold screenshot_within in Hev.
    destruct ev as [line | A c r]; simpl; [now split|].
    destruct c; simpl in *; try now split.
    apply mem_In in Hev. split.
    + now constructor.
    + destruct (returned r); [now constructor | exact IH2].
Qed.

Lemma files_after_within paths files t :
  Forall (fun path => In path paths) (written t) ->
  files_after files t ⊆ files ∪ list_to_set paths.
Proof.
  intros H. unfold files_after. apply union_mono_l.
  intros x Hx. apply elem_of_list_to_set in Hx. apply elem_of_list_to_set.
  rewrite Forall_forall in H. apply list_elem_of_In. apply H. exact Hx.
Qed.

Lemma screenshot_files_run paths (script : M unit) :
  triple (all_step (screenshot_within paths)) true script
    (fun _ q => q = true) (fun _ q => q = true) ->
  forall o h files,
    Forall (fun path => In path paths) (screenshots (run_from script o h)) /\
    files_after files (run_from script o h) ⊆ files ∪ list_to_set paths /\
    (forall o',
       files_after (files_after files (run_from script o h))
         (run_from script o' (h ++ run_from script o h))
       ⊆ files ∪ list_to_set paths) /\
    (forall o',
       written (run_from script o' (h ++ run_from script o h))
         = written (run_from script o h) ->
       files_after (files_after files (run_from script o h))
         (run_from script o' (h ++ run_from script o h))
       = files_after files (run_from script o h)).
Proof.
  intros H o h files.
  assert (Hall : forall o h, forallb (screenshot_within paths) (run_from script o h) = true).
  { intros o1 h1.
    pose proof (triple_trace _ _ _ (fun q => q = true) o1 h1 H) as H1.
    now rewrite observe_all in H1. }
  destruct (written_screenshots _ _ (Hall o h)) as [Hs Hw].
  split; [exact Hs|]. split; [now apply files_after_within|]. split.
  - intros o'.
    destruct (written_screenshots _ _ (Hall o' (h ++ run_from script o h))) as [_ Hw'].
    pose proof (files_after_within paths files _ Hw) as H1.
    pose proof (files_after_within paths (files_after files (run_from script o h)) _ Hw') as H2.
    etrans; [exact H2|]. apply union_least; [exact H1 | apply union_subseteq_r].
  - intros o' Heq. unfold files_after. rewrite Heq.
    rewrite <- (assoc_L (∪)). f_equal. apply (idemp_L (∪)).
Qed.

(** C7, as amended.  Every screenshot call of a script, whatever the run,
    is on one of the script's hardcoded paths, so a run only creates or
    overwrites files of that fixed set, and so does a rerun: no file
    outside it ever appears.  A rerun that writes the same screenshots as
    the first run leaves the files as the first run left them. *)
Theorem screenshot_paths_are_fixed :
  (forall o h files,
     Forall (fun path => In path verify_app_paths) (screenshots (run_from verify_app o h)) /\
     files_after files (run_from verify_app o h) ⊆ files ∪ list_to_set verify_app_paths /\
     (forall o',
        files_after (files_after files (run_from verify_app o h))
          (run_from verify_app o' (h ++ run_from verify_app o h))
        ⊆ files ∪ list_to_set verify_app_paths) /\
     (forall o',
        written (run_from verify_app o' (h ++ run_from verify_app o h))
          = written (run_from verify_app o h) ->
        files_after (files_after files (run_from verify_app o h))
          (run_from verify_app o' (h ++ run_from verify_app o h))
        = files_after files (run_from verify_app o h))) /\
  (forall o h files,
     Forall (fun path => In path verify_app_revolutionary_paths)
       (screenshots (run_from verify_app_revolutionary o h)) /\
     files_after files (run_from verify_app_revolutionary o h)
       ⊆ files ∪ list_to_set verify_app_revolutionary_paths /\
     (forall o',
        files_after (files_after files (run_from verify_app_revolutionary o h))
          (run_from verify_app_revolutionary o' (h ++ run_from verify_app_revolutionary o h))
        ⊆ files ∪ list_to_set verify_app_revolutionary_paths) /\
     (forall o',
        written (run_from verify_app_revolutionary o'
                   (h ++ run_from verify_app_revolutionary o h))
          = written (run_from verify_app_revolutionary o h) ->
        files_after (files_after files (run_from verify_app_revolutionary o h))
          (run_from verify_app_revolutionary o' (h ++ run_from verify_app_revolutionary o h))
        = files_after files (run_from verify_app_revolutionary o h))) /\
  (forall o h files,
     Forall (fun path => In path verify_app_debug_paths)
       (screenshots (run_from verify_app_debug o h)) /\
     files_after files (run_from verify_app_debug o h)
       ⊆ files ∪ list_to_set verify_app_debug_paths /\
     (forall o',
        files_after (files_after files (run_from verify_app_debug o h))
          (run_from verify_app_debug o' (h ++ run_from verify_app_debug o h))
        ⊆ files ∪ list_to_set verify_app_debug_paths) /\
     (forall o',
        written (run_from verify_app_debug o' (h ++ run_from verify_app_debug o h))
          = written (run_from verify_app_debug o h) ->
        files_after (files_after files (run_from verify_app_debug o h))
          (run_from verify_app_debug o' (h ++ run_from verify_app_debug o h))
        = files_after files (run_from verify_app_debug o h))) /\
  (forall o h files,
     Forall (fun path => In path verify_fix_paths) (screenshots (run_from verify_fix o h)) /\
     files_after files (run_from verify_fix o h) ⊆ files ∪ list_to_set verify_fix_paths /\
     (forall o',
        files_after (files_after files (run_from verify_fix o h))
          (run_from verify_fix o' (h ++ run_from verify_fix o h))
        ⊆ files ∪ list_to_set verify_fix_paths) /\
     (forall o',
        written (run_from verify_fix o' (h ++ run_from verify_fix o h))
          = written (run_from verify_fix o h) ->
        files_after (files_after files (run_from verify_fix o h))
          (run_from verify_fix o' (h ++ run_from verify_fix o h))
        = files_after files (run_from verify_fix o h))).
Proof.
  refine (conj _ (conj _ (conj _ _))); apply screenshot_files_run.
  - apply verify_app_screenshot_paths.
  - apply verify_app_revolutionary_screenshot_paths.
  - apply verify_app_debug_screenshot_paths.
  - apply verify_fix_screenshot_paths.
Qed.

Lemma screenshot_paths_are_fixed_witness :
  files_after (files_after ∅ (run_from verify_app every_call_returns []))
    (run_from verify_app every_call_returns ([] ++ run_from verify_app every_call_returns []))
  = files_after ∅ (run_from verify_app every_call_returns []).
Proof.
  apply (proj2 (proj2 (proj2 (proj1 screenshot_paths_are_fixed every_call_returns [] ∅)))
           every_call_returns).
  vm_compute. reflexivity.
Defined.

(** C7, as stated, fails: a second run of [verify_app.py] that finds the
    server down writes [error.png], which the first, successful run did
    not write; two runs leave five files where one run leaves four. *)
Lemma rerun_adds_error_screenshot :
  written (run_from verify_app server_goes_down []) =
    ["verification/1_auth_screen.png"; "verification/2_scanner_view.png";
     "verification/3_profile_view.png"; "verification/4_collection_view.png"] /\
  written (run_from verify_app server_goes_down (run_from verify_app server_goes_down []))
    = ["verification/error.png"] /\
  files_after (files_after ∅ (run_from verify_app server_goes_down []))
    (run_from verify_app server_goes_down (run_from verify_app server_goes_down []))
  <> files_after ∅ (run_from verify_app server_goes_down []).
Proof.
  assert (H1 : written (run_from verify_app server_goes_down []) =
    ["verification/1_auth_screen.png"; "verification/2_scanner_view.png";
     "verification/3_profile_view.png"; "verification/4_collection_view.png"])
    by (vm_compute; reflexivity).
  assert (H2 : written (run_from verify_app server_goes_down
                          (run_from verify_app server_goes_down []))
               = ["verification/error.png"]) by (vm_compute; reflexivity).
  split; [exact H1|]. split; [exact H2|].
  unfold files_after. rewrite H1, H2. intros Heq.
  assert (Hin : "verification/error.png" ∈
                (∅ ∪ list_to_set ["verification/1_auth_screen.png";
                                  "verification/2_scanner_view.png";
                                  "verification/3_profile_view.png";
                                  "verification/4_collection_view.png"]
                 ∪ list_to_set ["verification/error.png"] : gset string)).
  { apply elem_of_union_r. apply elem_of_list_to_set. apply list_elem_of_In. now left. }
  rewrite Heq in Hin. apply elem_of_union in Hin. destruct Hin as [Hin | Hin].
  - now apply not_elem_of_empty in Hin.
  - apply elem_of_list_to_set, list_elem_of_In in Hin. simpl in Hin.
    intuition discriminate.
Qed.

(** ** C10: the debug script *)

Lemma verify_app_debug_allowed :
  triple (step_pair (all_step debug_allowed) (count_step is_interaction))
    (true, 0%nat) verify_app_debug
    (fun _ q => q = (true, 0%nat)) (fun _ q => q = (true, 0%nat)).
Proof. unfold verify_app_debug. explore; same_leaf. Qed.

Ltac shots_leaf := cbv; first [left; reflexivity | right; reflexivity].

Lemma verify_app_debug_one_screenshot :
  triple (omap_step screenshot_path) [] verify_app_debug
    (fun _ => at_most_debug_state) (fun _ => at_most_debug_state).
Proof. unfold verify_app_debug. explore; shots_leaf. Qed.

Lemma verify_app_debug_screenshot_after_body :
  triple (precedes_step (wait_returned "body") is_screenshot) (false, true) verify_app_debug
    (fun _ q => snd q = true) (fun _ q => snd q = true).
Proof. unfold verify_app_debug. explore; same_leaf. Qed.

(** C10.  [verify_app_debug.py] never fills or clicks: apart from starting
    and closing the browser it only navigates, waits, takes a screenshot,
    reads the title and the content, and prints.  A run makes at most one
    screenshot call, on [verification/debug_state.png], and only after the
    wait for [body] has returned. *)
Theorem debug_script_is_read_only :
  forall o,
    forallb debug_allowed (trace_of verify_app_debug o) = true /\
    count_if is_interaction (trace_of verify_app_debug o) = 0%nat /\
    (screenshots (trace_of verify_app_debug o) = [] \/
     screenshots (trace_of verify_app_debug o) = ["verification/debug_state.png"]) /\
    (forall pre ev post,
       trace_of verify_app_debug o = pre ++ ev :: post -> is_screenshot ev = true ->
       exists ms, In (Call (WaitForSelector "body" ms) (inr tt)) pre).
Proof.
  intros o.
  pose proof (triple_trace _ _ _ (fun q => q = (true, 0%nat)) o []
                verify_app_debug_allowed) as Ha.
  pose proof (triple_trace _ _ _ at_most_debug_state o []
                verify_app_debug_one_screenshot) as Hs.
  pose proof (triple_trace _ _ _ (fun q => snd q = true) o []
                verify_app_debug_screenshot_after_body) as Hp.
  fold (trace_of verify_app_debug o) in Ha, Hs, Hp.
  rewrite observe_pair, observe_all, observe_count in Ha. injection Ha as Ha1 Ha2.
  rewrite observe_omap in Hs.
  refine (conj Ha1 (conj Ha2 (conj Hs _))).
  intros pre ev post Ht Hev.
  destruct (observe_precedes _ _ _ _ _ Hp) as [_ Hall].
  destruct (Hall pre ev post Ht Hev) as [Hf | (ev' & Hin & Hw)]; [discriminate|].
  destruct ev' as [line | A c r]; [discriminate|].
  destruct c; try discriminate. simpl in Hw.
  apply andb_true_iff in Hw. destruct Hw as [Hr Hsel].
  apply String.eqb_eq in Hsel. subst selector.
  destruct r as [e | []]; [discriminate|]. now exists timeout.
Qed.

Lemma debug_script_is_read_only_witness :
  exists ms,
    In (Call (WaitForSelector "body" ms) (inr tt))
       (firstn 7 (trace_of verify_app_debug every_call_returns)).
Proof.
  refine (proj2 (proj2 (proj2 (debug_script_is_read_only every_call_returns)))
            (firstn 7 (trace_of verify_app_debug every_call_returns))
            (Call (Screenshot "verification/debug_state.png") (inr tt))
            (skipn 8 (trace_of verify_app_debug every_call_returns)) _ _); reflexivity.
Defined.

(** * Further properties *)

(** ** Page content: the slice and the text check *)

Lemma slice_to_chars n s : chars (slice_to n s) = Nat.min n (chars s).
Proof.
  revert n. induction s as [|c s IH]; intros n; simpl.
  - now destruct n.
  - destruct (is_continuation c) eqn:Hc; simpl.
    + rewrite Hc. apply IH.
    + destruct n as [|n]; simpl; [reflexivity|]. rewrite Hc. now rewrite IH.
Qed.

Lemma slice_to_prefix n s :
  exists rest,
    s = slice_to n s +:+ rest /\
    match rest with
    | EmptyString => True
    | String c _ => is_continuation c = false
    end.
Proof.
  revert n. induction s as [|c s IH]; intros n; simpl.
  - now exists EmptyString.
  - destruct (is_continuation c) eqn:Hc.
    + destruct (IH n) as (rest & Hrest & Hc'). exists rest. split; [|exact Hc'].
      exact (f_equal (String c) Hrest).
    + destruct n as [|n].
      * exists (String c s). split; [reflexivity | exact Hc].
      * destruct (IH n) as (rest & Hrest & Hc'). exists rest. split; [|exact Hc'].
        exact (f_equal (String c) Hrest).
Qed.

Lemma slice_to_short n s : (chars s <= n)%nat -> slice_to n s = s.
Proof.
  revert n. induction s as [|c s IH]; intros n; simpl; [reflexivity|].
  destruct (is_continuation c).
  - intros H. f_equal. now apply IH.
  - destruct n as [|n]; [lia|]. intros H. f_equal. apply IH. lia.
Qed.

Lemma ascii_not_continuation c : is_ascii c = true -> is_continuation c = false.
Proof. destruct c as [? ? ? ? ? ? ? []]; [discriminate | reflexivity]. Qed.

Lemma slice_to_ascii n s :
  ascii_only s = true ->
  slice_to n s = String.substring 0 n s /\ chars s = String.length s.
Proof.
  revert n. induction s as [|c s IH]; intros n; simpl.
  - now destruct n.
  - intros H. apply andb_true_iff in H. destruct H as [Hc Hs].
    rewrite (ascii_not_continuation c Hc).
    destruct n as [|n]; (split; [|f_equal; exact (proj2 (IH 0%nat Hs))]).
    + reflexivity.
    + f_equal. exact (proj1 (IH n Hs)).
Qed.

(** [content[:n]] on a string kept as UTF-8 bytes never raises and never
    cuts a character: it is a prefix of the content that holds
    [min n (len content)] characters, what is left starts a new
    character, and it is all of the content when that has at most [n]
    characters.  On ASCII content characters are bytes, and the slice is
    the first [n] bytes. *)
Theorem content_slice_bounds n s :
  chars (slice_to n s) = Nat.min n (chars s) /\
  (exists rest,
     s = slice_to n s +:+ rest /\
     match rest with
     | EmptyString => True
     | String c _ => is_continuation c = false
     end) /\
  ((chars s <= n)%nat -> slice_to n s = s) /\
  (ascii_only s = true ->
   slice_to n s = String.substring 0 n s /\ chars s = String.length s).
Proof.
  split; [apply slice_to_chars|]. split; [apply slice_to_prefix|].
  split; [apply slice_to_short | apply slice_to_ascii].
Qed.

Lemma content_slice_bounds_witness :
  slice_to 2 (box_char +:+ box_char) = box_char +:+ box_char /\
  slice_to 500 "<html>" = String.substring 0 500 "<html>".
Proof.
  split.
  - apply (proj1 (proj2 (proj2 (content_slice_bounds 2 (box_char +:+ box_char))))).
    simpl. lia.
  - apply (proj2 (proj2 (proj2 (content_slice_bounds 500 "<html>")))). reflexivity.
Defined.

Lemma prefix_append a b : String.prefix a b = true <-> exists post, b = a +:+ post.
Proof.
  revert b. induction a as [|x a IH]; intros b; simpl.
  - destruct b; simpl; split; eauto.
  - destruct b as [|y b]; simpl.
    + split; [discriminate | intros [post H]; discriminate].
    + destruct (ascii_dec x y) as [->|Hne].
      * rewrite IH. split; intros [post H]; exists post; [now rewrite H | now injection H].
      * split; [discriminate | intros [post H]; injection H; congruence].
Qed.

Lemma str_in_empty needle : str_in needle EmptyString = String.prefix needle EmptyString.
Proof. unfold str_in. apply orb_false_r. Qed.

Lemma str_in_String needle c hay :
  str_in needle (String c hay) = String.prefix needle (String c hay) || str_in needle hay.
Proof. reflexivity. Qed.

(** The text check [needle in content] holds exactly when the needle
    occurs somewhere in the content. *)
Theorem str_in_substring needle hay :
  str_in needle hay = true <-> exists pre post, hay = pre +:+ needle +:+ post.
Proof.
  induction hay as [|c hay IH].
  - rewrite str_in_empty, prefix_append. split.
    + intros [post H]. now exists EmptyString, post.
    + intros (pre & post & H). destruct pre; [now exists post|discriminate].
  - rewrite str_in_String, orb_true_iff, IH, prefix_append. split.
    + intros [[post H] | (pre & post & H)].
      * now exists EmptyString, post.
      * exists (String c pre), post. now rewrite H.
    + intros (pre & post & H). destruct pre as [|d pre].
      * left. now exists post.
      * right. injection H as -> H. now exists pre, post.
Qed.

Lemma str_in_substring_witness :
  str_in "SYSTEM ACTIVE" "<body>SYSTEM ACTIVE</body>" = true.
Proof.
  apply (proj2 (str_in_substring "SYSTEM ACTIVE" "<body>SYSTEM ACTIVE</body>")).
  exists "<body>", "</body>". reflexivity.
Defined.

(** ** A run in which nothing raises *)

Ltac quiet_leaf :=
  cbv; first [ reflexivity | intros ?; first [discriminate | tauto] ].

Ltac from_quiet :=
  let H := fresh "H" in
  let ws := fresh "ws" in
  intros ? [[] ws] H; cbv in H;
  [ specialize (H eq_refl);
    repeat (destruct H as [H | H]; [subst ws|]); try contradiction
  | clear H; destruct ws as [[? ?] ?] ].

Lemma verify_app_quiet_run :
  triple quiet_monitor (true, ([], [], [])) verify_app
    (fun _ => quiet_in [(verify_app_quiet, [])]) (fun _ => not_quiet).
Proof.
  unfold verify_app. explore; try quiet_leaf.
  join (quiet_in [(["text=Access Protocol"], ["verification/1_auth_screen.png"], [])]);
    [explore; quiet_leaf | from_quiet; explore; quiet_leaf].
Qed.

Lemma verify_app_revolutionary_quiet_run :
  triple quiet_monitor (true, ([], [], [])) verify_app_revolutionary
    (fun _ => quiet_in [(verify_app_revolutionary_quiet true, [true]);
                        (verify_app_revolutionary_quiet false, [false])])
    (fun _ => not_quiet).
Proof.
  unfold verify_app_revolutionary. explore; try quiet_leaf.
  join (quiet_in [(["text=INITIALIZING KERNEL..."], ["verification/1_splash.png"], [])]);
    [explore; quiet_leaf | from_quiet; explore; try quiet_leaf].
  all: join (quiet_in [(["text=INITIALIZING KERNEL..."; "text=ROCKHOUND"],
                        ["verification/1_splash.png"; "verification/2_auth.png"], [true]);
                       (["text=INITIALIZING KERNEL..."; "text=ROCKHOUND"],
                        ["verification/1_splash.png"], [false])]);
    [explore; quiet_leaf | from_quiet; explore; quiet_leaf].
Qed.

Lemma verify_app_debug_quiet_run :
  triple quiet_monitor (true, ([], [], [])) verify_app_debug
    (fun _ => quiet_in [(verify_app_debug_quiet, [])]) (fun _ => not_quiet).
Proof. unfold verify_app_debug. explore; quiet_leaf. Qed.

Lemma verify_fix_quiet_run :
  triple quiet_monitor (true, ([], [], [])) verify_fix
    (fun _ => quiet_in [(verify_fix_quiet, [])]) (fun _ => not_quiet).
Proof. unfold verify_fix. explore; quiet_leaf. Qed.

Lemma quiet_written t : quiet t = true -> written t = screenshots t.
Proof.
  unfold quiet, written, screenshots. induction t as [|ev t IH]; [reflexivity|].
  intros H. simpl in H. apply andb_true_iff in H. destruct H as [Hev Ht].
  destruct ev as [line | A c [e | a]]; [exact (IH Ht) | discriminate |].
  destruct c; simpl; try exact (IH Ht). f_equal. exact (IH Ht).
Qed.

Lemma quiet_run states (script : M unit) (o : oracle) :
  triple quiet_monitor (true, ([], [], [])) script
    (fun _ => quiet_in states) (fun _ => not_quiet) ->
  quiet (trace_of script o) = true ->
  result_of script o = Normal tt /\
  In (waits (trace_of script o), written (trace_of script o),
      visible_answers (trace_of script o)) states /\
  screenshots (trace_of script o) = written (trace_of script o).
Proof.
  intros H Hq. apply (triple_run _ _ _ _ _ o) in H.
  unfold quiet_monitor, quiet_state in H.
  rewrite !observe_pair, observe_all, !observe_omap in H.
  fold (quiet (trace_of script o)) in H. rewrite Hq in H. simpl in H.
  unfold quiet_in, not_quiet in H. rewrite (quiet_written _ Hq).
  destruct (result_of script o) as [[]|e]; simpl in H; [|discriminate].
  split; [reflexivity|]. split; [exact (H eq_refl) | reflexivity].
Qed.

(** When no call raises, every script returns normally, waits exactly on
    its markers in program order ([verify_fix.py] only on the first: the
    scanner fallback is never tried) and writes exactly its step
    screenshots, the failure screenshot not among them.  In
    [verify_revolutionary.py] such a run asks [page.is_visible] once, and
    the auth screenshot is written exactly when the answer was that the
    login button is visible; the other scripts never ask. *)
Theorem quiet_run_completes :
  (forall o, quiet (trace_of verify_app o) = true ->
     result_of verify_app o = Normal tt /\
     waits (trace_of verify_app o) = verify_app_markers /\
     written (trace_of verify_app o)
       = ["verification/1_auth_screen.png"; "verification/2_scanner_view.png";
          "verification/3_profile_view.png"; "verification/4_collection_view.png"] /\
     screenshots (trace_of verify_app o) = written (trace_of verify_app o) /\
     visible_answers (trace_of verify_app o) = []) /\
  (forall o, quiet (trace_of verify_app_revolutionary o) = true ->
     result_of verify_app_revolutionary o = Normal tt /\
     waits (trace_of verify_app_revolutionary o) = verify_app_revolutionary_markers /\
     (exists visible,
        visible_answers (trace_of verify_app_revolutionary o) = [visible] /\
        written (trace_of verify_app_revolutionary o)
          = if visible
            then ["verification/1_splash.png"; "verification/2_auth.png";
                  "verification/3_scanner_hud.png"; "verification/4_admin_dashboard.png";
                  "verification/5_weather_dashboard.png"]
            else ["verification/1_splash.png";
                  "verification/3_scanner_hud.png"; "verification/4_admin_dashboard.png";
                  "verification/5_weather_dashboard.png"]) /\
     screenshots (trace_of verify_app_revolutionary o)
       = written (trace_of verify_app_revolutionary o)) /\
  (forall o, quiet (trace_of verify_app_debug o) = true ->
     result_of verify_app_debug o = Normal tt /\
     waits (trace_of verify_app_debug o) = ["body"] /\
     written (trace_of verify_app_debug o) = ["verification/debug_state.png"] /\
     screenshots (trace_of verify_app_debug o) = written (trace_of verify_app_debug o) /\
     visible_answers (trace_of verify_app_debug o) = []) /\
  (forall o, quiet (trace_of verify_fix o) = true ->
     result_of verify_fix o = Normal tt /\
     waits (trace_of verify_fix o) = ["text=ROCKHOUND"] /\
     written (trace_of verify_fix o) = ["verification/fixed_load.png"] /\
     screenshots (trace_of verify_fix o) = written (trace_of verify_fix o) /\
     visible_answers (trace_of verify_fix o) = []).
Proof.
  refine (conj _ (conj _ (conj _ _))); intros o Hq.
  - destruct (quiet_run _ _ o verify_app_quiet_run Hq) as (Hr & [[= Hw Hs Hv] | []] & Hsc).
    rewrite Hsc, <- Hw, <- Hs, <- Hv. auto.
  - destruct (quiet_run _ _ o verify_app_revolutionary_quiet_run Hq)
      as (Hr & [[= Hw Hs Hv] | [[= Hw Hs Hv] | []]] & Hsc).
    + rewrite <- Hw. repeat split; [exact Hr | | exact Hsc].
      exists true. now rewrite <- Hs, <- Hv.
    + rewrite <- Hw. repeat split; [exact Hr | | exact Hsc].
      exists false. now rewrite <- Hs, <- Hv.
  - destruct (quiet_run _ _ o verify_app_debug_quiet_run Hq)
      as (Hr & [[= Hw Hs Hv] | []] & Hsc).
    rewrite Hsc, <- Hw, <- Hs, <- Hv. auto.
  - destruct (quiet_run _ _ o verify_fix_quiet_run Hq) as (Hr & [[= Hw Hs Hv] | []] & Hsc).
    rewrite Hsc, <- Hw, <- Hs, <- Hv. auto.
Qed.

Lemma quiet_run_completes_witness :
  result_of verify_app every_call_returns = Normal tt /\
  exists visible,
    visible_answers (trace_of verify_app_revolutionary button_hidden) = [visible] /\
    In "verification/2_auth.png" (written (trace_of verify_app_revolutionary button_hidden))
      = In "verification/2_auth.png"
          (if visible
           then ["verification/1_splash.png"; "verification/2_auth.png";
                 "verification/3_scanner_hud.png"; "verification/4_admin_dashboard.png";
                 "verification/5_weather_dashboard.png"]
           else ["verification/1_splash.png";
                 "verification/3_scanner_hud.png"; "verification/4_admin_dashboard.png";
                 "verification/5_weather_dashboard.png"]).
Proof.
  split.
  - apply (proj1 quiet_run_completes every_call_returns). reflexivity.
  - destruct (proj1 (proj2 quiet_run_completes) button_hidden eq_refl)
      as (_ & _ & (visible & Hv & Hw) & _).
    exists visible. split; [exact Hv | now rewrite Hw].
Defined.

(** ** [verify_fix.py]: the files of a run *)

Lemma verify_fix_written_run :
  triple (omap_step written_path) [] verify_fix
    (fun _ q => In q verify_fix_written) (fun _ q => In q verify_fix_written).
Proof. unfold verify_fix. explore; at_leaf. Qed.

(** A run of [verify_fix.py] leaves at most one screenshot file:
    [fixed_load.png] or [still_stuck.png], never both, whatever returns or
    raises: each later screenshot is only tried after the one before it
    failed. *)
Theorem verify_fix_writes_at_most_one_file :
  forall o,
    In (written (trace_of verify_fix o)) verify_fix_written /\
    (length (written (trace_of verify_fix o)) <= 1)%nat.
Proof.
  intros o.
  pose proof (triple_trace _ _ _ (fun q => In q verify_fix_written) o []
                verify_fix_written_run) as H.
  fold (trace_of verify_fix o) in H. rewrite observe_omap, app_nil_l in H.
  fold (written (trace_of verify_fix o)) in H.
  split; [exact H|].
  destruct H as [H | [H | [H | []]]]; rewrite <- H; simpl; lia.
Qed.

Ltac fallback_leaf :=
  cbv; intros ?; first [discriminate | split; reflexivity].

Lemma verify_fix_fallback :
  triple fallback_monitor (false, (false, [])) verify_fix
    (fun _ => last_resort) (fun _ => last_resort).
Proof. unfold verify_fix. explore; fallback_leaf. Qed.

(** [verify_fix.py] tries [still_stuck.png] only as a last resort: in a
    run that attempts it, both markers were waited on and
    [fixed_load.png] was not written. *)
Theorem still_stuck_is_last_resort :
  forall o,
    existsb (is_screenshot_of "verification/still_stuck.png") (trace_of verify_fix o) = true ->
    ~ In "verification/fixed_load.png" (written (trace_of verify_fix o)) /\
    waits (trace_of verify_fix o) = ["text=ROCKHOUND"; "text=SYSTEM ACTIVE"].
Proof.
  intros o Hs.
  pose proof (triple_trace _ _ _ last_resort o [] verify_fix_fallback) as H.
  fold (trace_of verify_fix o) in H. unfold fallback_monitor, last_resort in H.
  rewrite !observe_pair, !observe_any, observe_omap in H. simpl in H.
  destruct (H Hs) as [Hf Hw]. split; [|exact Hw].
  intros Hin. apply not_true_iff_false in Hf. apply Hf.
  apply existsb_exists. unfold written in Hin.
  apply list_elem_of_In, list_elem_of_omap in Hin. destruct Hin as (ev & Hev & Hp).
  exists ev. split; [now apply list_elem_of_In|]. rewrite Hp. apply String.eqb_refl.
Qed.

Lemma still_stuck_is_last_resort_witness :
  waits (trace_of verify_fix both_waits_fail) = ["text=ROCKHOUND"; "text=SYSTEM ACTIVE"].
Proof.
  apply (still_stuck_is_last_resort both_waits_fail). reflexivity.
Defined.

(** ** Start-up, target and what the handler does not catch *)

Ltac startup_leaf :=
  cbv -[Nat.le]; first [ reflexivity | intros ?; first [discriminate | split; [reflexivity | lia]] ].

Ltac from_started :=
  let H := fresh "H" in
  intros ? [? [? ?]] H; cbv in H; subst.

Lemma verify_app_startup :
  triple startup_monitor (false, (true, 0%nat)) verify_app
    (fun _ => started) (fun _ => never_started).
Proof.
  unfold verify_app. explore; try startup_leaf.
  join started; [explore; startup_leaf | from_started; explore; startup_leaf].
Qed.

Lemma verify_app_revolutionary_startup :
  triple startup_monitor (false, (true, 0%nat)) verify_app_revolutionary
    (fun _ => started) (fun _ => never_started).
Proof.
  unfold verify_app_revolutionary. explore; try startup_leaf.
  join started; [explore; startup_leaf | from_started; explore; try startup_leaf].
  join started; [explore; startup_leaf | from_started; explore; startup_leaf].
Qed.

Lemma verify_app_debug_startup :
  triple startup_monitor (false, (true, 0%nat)) verify_app_debug
    (fun _ => started) (fun _ => never_started).
Proof. unfold verify_app_debug. explore; startup_leaf. Qed.

Lemma verify_fix_startup :
  triple startup_monitor (false, (true, 0%nat)) verify_fix
    (fun _ => started) (fun _ => never_started).
Proof. unfold verify_fix. explore; startup_leaf. Qed.

Lemma count_all t : count_if (fun _ => true) t = length t.
Proof. unfold count_if. induction t; simpl; auto. Qed.

Lemma startup_close ev : is_startup ev = true -> is_close ev = false.
Proof. destruct ev as [line | A c r]; [reflexivity|]. now destruct c. Qed.

Lemma startup_only_no_close t : forallb is_startup t = true -> closes t = 0%nat.
Proof.
  unfold closes, count_if. induction t as [|ev t IH]; simpl; [reflexivity|].
  intros H. apply andb_true_iff in H. destruct H as [Hev Ht].
  rewrite (startup_close _ Hev). now apply IH.
Qed.

Lemma startup_run (script : M unit) (o : oracle) :
  triple startup_monitor (false, (true, 0%nat)) script
    (fun _ => started) (fun _ => never_started) ->
  page_created (trace_of script o) = false ->
  (exists e, result_of script o = Raise e) /\
  forallb is_startup (trace_of script o) = true /\
  closes (trace_of script o) = 0%nat /\
  (length (trace_of script o) <= 4)%nat.
Proof.
  intros H Hp. apply (triple_run _ _ _ _ _ o) in H.
  unfold startup_monitor in H.
  rewrite !observe_pair, observe_any, observe_all, observe_count, count_all in H.
  fold (page_created (trace_of script o)) in H. rewrite Hp in H. simpl in H.
  unfold started, never_started in H.
  destruct (result_of script o) as [[]|e]; simpl in H; [discriminate|].
  destruct (H eq_refl) as [H1 H2].
  split; [now exists e|]. split; [exact H1|]. split; [|exact H2].
  now apply startup_only_no_close.
Qed.

(** When the page is never created (playwright does not start, the
    browser does not launch or [new_page] raises), the try statement is
    never entered: the run holds start-up calls only, at most four, so
    nothing is printed, no page call is made and [browser.close()] is not
    called, and the exception leaves the function. *)
Theorem startup_failure_skips_everything :
  all_scripts (fun script => forall o,
    page_created (trace_of script o) = false ->
    (exists e, result_of script o = Raise e) /\
    forallb is_startup (trace_of script o) = true /\
    closes (trace_of script o) = 0%nat /\
    (length (trace_of script o) <= 4)%nat).
Proof.
  unfold all_scripts; refine (conj _ (conj _ (conj _ _))); intros o; apply startup_run.
  - apply verify_app_startup.
  - apply verify_app_revolutionary_startup.
  - apply verify_app_debug_startup.
  - apply verify_fix_startup.
Qed.

Lemma startup_failure_skips_everything_witness :
  closes (trace_of verify_app browser_missing) = 0%nat.
Proof.
  apply (proj1 startup_failure_skips_everything browser_missing). reflexivity.
Defined.

Ltac target_leaf := cbv -[Nat.le]; split; [reflexivity | lia].

Lemma verify_app_target :
  triple target_monitor (true, 0%nat) verify_app
    (fun _ => one_local_goto) (fun _ => one_local_goto).
Proof.
  unfold verify_app. explore; try target_leaf.
  join (eq (true, 1%nat)); [explore; same_leaf | intros ? ? <-; explore; target_leaf].
Qed.

Lemma verify_app_revolutionary_target :
  triple target_monitor (true, 0%nat) verify_app_revolutionary
    (fun _ => one_local_goto) (fun _ => one_local_goto).
Proof.
  unfold verify_app_revolutionary. explore; try target_leaf.
  join (eq (true, 1%nat)); [explore; same_leaf | intros ? ? <-; explore; try target_leaf].
  join (eq (true, 1%nat)); [explore; same_leaf | intros ? ? <-; explore; target_leaf].
Qed.

Lemma verify_app_debug_target :
  triple target_monitor (true, 0%nat) verify_app_debug
    (fun _ => one_local_goto) (fun _ => one_local_goto).
Proof. unfold verify_app_debug. explore; target_leaf. Qed.

Lemma verify_fix_target :
  triple target_monitor (true, 0%nat) verify_fix
    (fun _ => one_local_goto) (fun _ => one_local_goto).
Proof. unfold verify_fix. explore; target_leaf. Qed.

Lemma target_run (script : M unit) (o : oracle) :
  triple target_monitor (true, 0%nat) script
    (fun _ => one_local_goto) (fun _ => one_local_goto) ->
  forallb local_headless (trace_of script o) = true /\
  (count_if is_goto (trace_of script o) <= 1)%nat.
Proof.
  intros H. apply (triple_trace _ _ _ one_local_goto o []) in H.
  fold (trace_of script o) in H. unfold target_monitor, one_local_goto in H.
  now rewrite observe_pair, observe_all, observe_count in H.
Qed.

(** No script ever navigates anywhere but to [http://localhost:4173], and
    does so at most once per run (no reload, no retry); the browser is
    only ever launched headless. *)
Theorem one_navigation_to_local_server :
  all_scripts (fun script => forall o,
    forallb local_headless (trace_of script o) = true /\
    (count_if is_goto (trace_of script o) <= 1)%nat).
Proof.
  unfold all_scripts; refine (conj _ (conj _ (conj _ _))); intros o; apply target_run.
  - apply verify_app_target.
  - apply verify_app_revolutionary_target.
  - apply verify_app_debug_target.
  - apply verify_fix_target.
Qed.


Ltac bypass_leaf :=
  followed_leaf;
  intros ? [= <-] ?;
  first [ congruence | eexists; eexists; split; reflexivity ].

Lemma verify_app_bypass :
  triple (step_pair (after_step (call_raised verify_app_unguarded)) no_monitor)
    (None, tt) verify_app
    (fun a => followed (call_raised verify_app_unguarded) (bypasses_handler (Normal a)))
    (fun e => followed (call_raised verify_app_unguarded) (bypasses_handler (Raise e))).
Proof.
  unfold verify_app. explore; try bypass_leaf.
  join (eq (None (A := event * list event), tt));
    [explore; same_leaf | intros ? ? <-; explore; bypass_leaf].
Qed.

Lemma verify_app_revolutionary_bypass :
  triple (step_pair (after_step (call_raised verify_app_revolutionary_unguarded)) no_monitor)
    (None, tt) verify_app_revolutionary
    (fun a => followed (call_raised verify_app_revolutionary_unguarded)
                (bypasses_handler (Normal a)))
    (fun e => followed (call_raised verify_app_revolutionary_unguarded)
                (bypasses_handler (Raise e))).
Proof.
  unfold verify_app_revolutionary. explore; try bypass_leaf.
  join (eq (None (A := event * list event), tt));
    [explore; same_leaf | intros ? ? <-; explore; try bypass_leaf].
  join (eq (None (A := event * list event), tt));
    [explore; same_leaf | intros ? ? <-; explore; bypass_leaf].
Qed.

Lemma verify_app_debug_bypass :
  triple (step_pair (after_step (call_raised verify_app_debug_unguarded)) no_monitor)
    (None, tt) verify_app_debug
    (fun a => followed (call_raised verify_app_debug_unguarded) (bypasses_handler (Normal a)))
    (fun e => followed (call_raised verify_app_debug_unguarded) (bypasses_handler (Raise e))).
Proof. unfold verify_app_debug. explore; bypass_leaf. Qed.

Lemma verify_fix_bypass :
  triple (step_pair (after_step (call_raised verify_fix_unguarded)) no_monitor)
    (None, tt) verify_fix
    (fun a => followed (call_raised verify_fix_unguarded) (bypasses_handler (Normal a)))
    (fun e => followed (call_raised verify_fix_unguarded) (bypasses_handler (Raise e))).
Proof. unfold verify_fix. explore; bypass_leaf. Qed.

(** What [except Exception] does not catch (a [KeyboardInterrupt], say),
    raised by a call of the try suite outside the bare [except] blocks,
    skips the handler: no error line and no failure screenshot, only
    [browser.close()] and the context exit follow, and it leaves the
    function (unless the close or the exit raise in turn). *)
Theorem non_exception_bypasses_handler :
  (forall o pre A (c : call A) e post,
     trace_of verify_app o = pre ++ Call c (inl e) :: post ->
     verify_app_unguarded A c = true -> is_Exception e = false ->
     exists rc rx,
       post = [Call BrowserClose rc; Call SyncPlaywrightExit rx] /\
       result_of verify_app o = propagated e rc rx) /\
  (forall o pre A (c : call A) e post,
     trace_of verify_app_revolutionary o = pre ++ Call c (inl e) :: post ->
     verify_app_revolutionary_unguarded A c = true -> is_Exception e = false ->
     exists rc rx,
       post = [Call BrowserClose rc; Call SyncPlaywrightExit rx] /\
       result_of verify_app_revolutionary o = propagated e rc rx) /\
  (forall o pre A (c : call A) e post,
     trace_of verify_app_debug o = pre ++ Call c (inl e) :: post ->
     verify_app_debug_unguarded A c = true -> is_Exception e = false ->
     exists rc rx,
       post = [Call BrowserClose rc; Call SyncPlaywrightExit rx] /\
       result_of verify_app_debug o = propagated e rc rx) /\
  (forall o pre A (c : call A) e post,
     trace_of verify_fix o = pre ++ Call c (inl e) :: post ->
     verify_fix_unguarded A c = true -> is_Exception e = false ->
     exists rc rx,
       post = [Call BrowserClose rc; Call SyncPlaywrightExit rx] /\
       result_of verify_fix o = propagated e rc rx).
Proof.
  refine (conj _ (conj _ (conj _ _))); intros o pre A c e post Ht Hc He.
  - exact (followed_run _ _ _ _ bypasses_handler o
             verify_app_bypass pre _ post Ht Hc e eq_refl He).
  - exact (followed_run _ _ _ _ bypasses_handler o
             verify_app_revolutionary_bypass pre _ post Ht Hc e eq_refl He).
  - exact (followed_run _ _ _ _ bypasses_handler o
             verify_app_debug_bypass pre _ post Ht Hc e eq_refl He).
  - exact (followed_run _ _ _ _ bypasses_handler o
             verify_fix_bypass pre _ post Ht Hc e eq_refl He).
Qed.

Lemma non_exception_bypasses_handler_witness :
  exists rc rx,
    skipn 20 (trace_of verify_app interrupted)
      = [Call BrowserClose rc; Call SyncPlaywrightExit rx] /\
    result_of verify_app interrupted = propagated (Exn KeyboardInterrupt "") rc rx.
Proof.
  refine (proj1 non_exception_bypasses_handler interrupted
            (firstn 19 (trace_of verify_app interrupted))
            unit (WaitForSelector "text=Vault" 5000) (Exn KeyboardInterrupt "")
            (skipn 20 (trace_of verify_app interrupted)) _ _ _); reflexivity.
Defined.

(** ** The login form *)

Ltac login_leaf := cbv; repeat split; reflexivity.

Ltac from_login :=
  let H := fresh "H" in
  intros ? [[? ?] [[? ?] ?]] H; cbv in H; destruct H as (-> & -> & ->).

Lemma verify_app_login :
  triple (login_monitor (sel_has_text "Initialize Session"))
    ((false, true), ((false, true), true)) verify_app
    (fun _ => login_in_order) (fun _ => login_in_order).
Proof.
  unfold verify_app. explore; try login_leaf.
  join login_in_order; [explore; login_leaf | from_login; explore; login_leaf].
Qed.

Lemma verify_app_revolutionary_login :
  triple (login_monitor (sel_has_text "Authenticate"))
    ((false, true), ((false, true), true)) verify_app_revolutionary
    (fun _ => login_in_order) (fun _ => login_in_order).
Proof.
  unfold verify_app_revolutionary. explore; try login_leaf.
  join (eq ((false, true), ((false, true), true)));
    [explore; same_leaf | intros ? ? <-; explore; try login_leaf].
  join login_in_order; [explore; login_leaf | from_login; explore; login_leaf].
Qed.

Lemma fill_returned_event selector value ev :
  fill_returned selector value ev = true -> ev = Call (Fill selector value) (inr tt).
Proof.
  destruct ev as [line | A c r]; [discriminate|].
  destruct c; try discriminate. simpl.
  destruct r as [e | []]; [discriminate|]. simpl.
  intros H. apply andb_true_iff in H. destruct H as [H1 H2].
  apply String.eqb_eq in H1, H2. now subst.
Qed.

Lemma is_click_on_event selector r :
  is_click_on selector (Call (Click selector) r) = true.
Proof. simpl. apply String.eqb_refl. Qed.

Lemma login_run submit (script : M unit) (o : oracle) :
  triple (login_monitor submit) ((false, true), ((false, true), true)) script
    (fun _ => login_in_order) (fun _ => login_in_order) ->
  (forall pre r post,
     trace_of script o = pre ++ Call (Click submit) r :: post ->
     In (Call (Fill sel_email "admin@rockhound.com") (inr tt)) pre /\
     In (Call (Fill sel_password "admin") (inr tt)) pre) /\
  forallb credentials_only (trace_of script o) = true.
Proof.
  intros H. apply (triple_trace _ _ _ login_in_order o []) in H.
  fold (trace_of script o) in H. unfold login_monitor, login_in_order in H.
  rewrite !observe_pair, observe_all in H. simpl in H.
  destruct H as (H1 & H2 & H3). split; [|exact H3].
  intros pre r post Ht.
  destruct (observe_precedes _ _ _ _ _ H1) as [_ Ha1].
  destruct (observe_precedes _ _ _ _ _ H2) as [_ Ha2].
  destruct (Ha1 pre _ post Ht (is_click_on_event submit r)) as [? | (e1 & Hin1 & He1)];
    [discriminate|].
  destruct (Ha2 pre _ post Ht (is_click_on_event submit r)) as [? | (e2 & Hin2 & He2)];
    [discriminate|].
  apply fill_returned_event in He1, He2. subst. now split.
Qed.

(** The login form is only ever submitted after both fields have been
    filled: in [verify_app.py] and [verify_revolutionary.py] every click
    on the submit button comes after a fill of the e-mail field and a fill
    of the password field that returned, and the scripts type nothing but
    these two hardcoded credentials. *)
Theorem login_submitted_after_credentials :
  (forall o,
     (forall pre r post,
        trace_of verify_app o
          = pre ++ Call (Click (sel_has_text "Initialize Session")) r :: post ->
        In (Call (Fill sel_email "admin@rockhound.com") (inr tt)) pre /\
        In (Call (Fill sel_password "admin") (inr tt)) pre) /\
     forallb credentials_only (trace_of verify_app o) = true) /\
  (forall o,
     (forall pre r post,
        trace_of verify_app_revolutionary o
          = pre ++ Call (Click (sel_has_text "Authenticate")) r :: post ->
        In (Call (Fill sel_email "admin@rockhound.com") (inr tt)) pre /\
        In (Call (Fill sel_password "admin") (inr tt)) pre) /\
     forallb credentials_only (trace_of verify_app_revolutionary o) = true).
Proof.
  split; intros o; apply login_run.
  - apply verify_app_login.
  - apply verify_app_revolutionary_login.
Qed.


Lemma login_submitted_after_credentials_witness :
  In (Call (Fill sel_email "admin@rockhound.com") (inr tt))
     (firstn 9 (trace_of verify_app every_call_returns)) /\
  In (Call (Fill sel_password "admin") (inr tt))
     (firstn 9 (trace_of verify_app every_call_returns)).
Proof.
  refine (proj1 (proj1 login_submitted_after_credentials every_call_returns)
            (firstn 9 (trace_of verify_app every_call_returns)) (inr tt)
            (skipn 10 (trace_of verify_app every_call_returns)) _).
  reflexivity.
Defined.

(** ** The events right after an event *)























(** ** Interactions, title and content *)

Ltac sublist_leaf :=
  cbv;
  repeat first [apply sublist_skip | apply sublist_cons]; apply sublist_nil.

Lemma verify_app_interactions_run :
  triple (omap_step interaction_of) [] verify_app
    (fun _ q => q `sublist_of` verify_app_interactions)
    (fun _ q => q `sublist_of` verify_app_interactions).
Proof.
  unfold verify_app. explore; try sublist_leaf.
  join_at [firstn 0 verify_app_interactions; firstn 1 verify_app_interactions;
           firstn 2 verify_app_interactions; firstn 3 verify_app_interactions];
    [explore; at_leaf | from_states; explore; sublist_leaf].
Qed.

Lemma verify_app_revolutionary_interactions_run :
  triple (omap_step interaction_of) [] verify_app_revolutionary
    (fun _ q => q `sublist_of` verify_app_revolutionary_interactions)
    (fun _ q => q `sublist_of` verify_app_revolutionary_interactions).
Proof.
  unfold verify_app_revolutionary. explore; try sublist_leaf.
  join (eq (@nil (string * option string)));
    [explore; same_leaf | intros ? ? <-; explore; try sublist_leaf].
  join_at [firstn 0 verify_app_revolutionary_interactions;
           firstn 1 verify_app_revolutionary_interactions;
           firstn 2 verify_app_revolutionary_interactions;
           firstn 3 verify_app_revolutionary_interactions];
    [explore; at_leaf | from_states; explore; sublist_leaf].
Qed.

Lemma verify_fix_interactions_run :
  triple (omap_step interaction_of) [] verify_fix
    (fun _ q => q = []) (fun _ q => q = []).
Proof. unfold verify_fix. explore; same_leaf. Qed.

(** The scripts never repeat or reorder an interaction: the fills and
    clicks of a run of [verify_app.py] or [verify_revolutionary.py] are a
    sublist of the script's six interactions in program order, and
    [verify_fix.py] neither fills nor clicks. *)
Theorem interactions_in_program_order :
  forall o,
    interactions (trace_of verify_app o) `sublist_of` verify_app_interactions /\
    interactions (trace_of verify_app_revolutionary o)
      `sublist_of` verify_app_revolutionary_interactions /\
    interactions (trace_of verify_fix o) = [] /\
    NoDup verify_app_interactions /\ NoDup verify_app_revolutionary_interactions.
Proof.
  intros o.
  pose proof (triple_trace _ _ _ (fun q => q `sublist_of` verify_app_interactions) o []
                verify_app_interactions_run) as H1.
  pose proof (triple_trace _ _ _
                (fun q => q `sublist_of` verify_app_revolutionary_interactions) o []
                verify_app_revolutionary_interactions_run) as H2.
  pose proof (triple_trace _ _ _ (fun q => q = []) o [] verify_fix_interactions_run) as H3.
  rewrite observe_omap in H1, H2, H3.
  refine (conj H1 (conj H2 (conj H3 _))).
  split;
    repeat (apply NoDup_cons_2;
            [rewrite ?not_elem_of_cons; repeat split; try discriminate;
             apply not_elem_of_nil|]);
    apply NoDup_nil_2.
Qed.










(** A run of [verify_app_debug.py] on a page whose content is not ASCII,
    with a standard output that takes ASCII only: the print of the snippet
    raises, no verdict is printed, the handler prints the error and the
    script returns normally. *)
Lemma unprintable_content_is_caught :
  skipn 10 (trace_of verify_app_debug unprintable_page) =
    [Call Content (inr ("<html><body>" +:+ box_char +:+ " SYSTEM ACTIVE</body></html>"));
     Printed ("Page Content Snippet: <html><body>" +:+ box_char
              +:+ " SYSTEM ACTIVE</body></html>");
     Call (StdoutWrite ("Page Content Snippet: <html><body>" +:+ box_char
                        +:+ " SYSTEM ACTIVE</body></html>"))
       (inl (Exn OtherException "'ascii' codec can't encode character"));
     Printed "Error: 'ascii' codec can't encode character";
     Call BrowserClose (inr tt); Call SyncPlaywrightExit (inr tt)] /\
  result_of verify_app_debug unprintable_page = Normal tt.
Proof. split; reflexivity. Qed.
